(** * image-parse: the structured-extraction pipeline

    A shallow embedding of the extraction route handler
    ([src/app/api/extract/route.ts] and the expense-tracking revisions of
    the same handler kept in [src/app/page.tsx]) and of the [ImageOCR]
    client component that calls it ([src/unnamed/part_000]).

    The handler works on untyped JSON ([request.json()] is [any], the
    caught [error] is [any]), so values are modelled as dynamically typed
    JavaScript values and every property read, method call and truthiness
    test is written out with the outcome JavaScript gives it, including
    the [TypeError]s the engine raises on the way. *)

From stdpp Require Import gmap strings list fin_maps.

Local Open Scope string_scope.
Set Warnings "-register-all".

(** ** JavaScript values *)

Module Js.

(** The values that JSON text, a thrown exception or a React state cell can
    hold.  The code only ever tests a number for truthiness or prints it,
    so a number is kept as the text [Number.prototype.toString] gives for
    it: two numbers that print alike behave alike here ([-0] prints as
    [0]). *)
Inductive JsValue : Type :=
  | JUndefined
  | JNull
  | JBool (b : bool)
  | JNum (shown : string)
  | JStr (s : string)
  | JArr (items : list JsValue)
  | JObj (fields : gmap string JsValue).

(** An object literal [{ k1: v1, k2: v2, ... }]. *)
Definition object (fields : list (string * JsValue)) : JsValue :=
  JObj (list_to_map fields).

(** [!v] is [negb (truthy v)]. *)
Definition truthy (v : JsValue) : bool :=
  match v with
  | JUndefined | JNull => false
  | JBool b => b
  | JNum shown => negb (String.eqb shown "0" || String.eqb shown "NaN")
  | JStr s => negb (String.eqb s EmptyString)
  | JArr _ | JObj _ => true
  end.

Definition nullish (v : JsValue) : bool :=
  match v with
  | JUndefined | JNull => true
  | _ => false
  end.

(** [a || b] on values. *)
Definition or_else (a b : JsValue) : JsValue :=
  if truthy a then a else b.

(** [String.prototype.includes]: [needle] occurs in [hay] as a contiguous,
    case-sensitive substring. *)
Fixpoint includes (needle hay : string) : bool :=
  String.prefix needle hay ||
  match hay with
  | EmptyString => false
  | String _ rest => includes needle rest
  end.

(** [s === needle] for an array element [s]. *)
Definition is_string (needle : string) (v : JsValue) : bool :=
  match v with
  | JStr s => String.eqb s needle
  | _ => false
  end.

(** [v.key] on a value that is not nullish: [undefined] unless [v] is an
    object that has the key. *)
Definition field (v : JsValue) (key : string) : JsValue :=
  match v with
  | JObj fields => default JUndefined (fields !! key)
  | _ => JUndefined
  end.

(** The places where the engine raises a [TypeError]: destructuring or
    reading a property of [null] or [undefined] ([v] says which), calling
    something that is no function ([callee] is the text of the callee),
    and converting an object to a string that has no usable [toString]. *)
Inductive Fault : Type :=
  | DestructureNullish (v : JsValue) (property : string)
  | ReadOfNullish (v : JsValue) (property : string)
  | NotAFunction (callee : string)
  | NotPrimitive.

(** What differs between engines: the wording of the [TypeError]
    messages. *)
Record Engine : Type := { type_error_message : Fault -> string }.

(** An [Error] instance as the handler sees it: an object whose [message]
    is a string. *)
Definition ErrorObject (message : string) : JsValue :=
  object [("message", JStr message)].

(** Result of evaluating an expression or a block: a value, or a [throw]. *)
Inductive Completion (A : Type) : Type :=
  | Normal (a : A)
  | Throw (e : JsValue).
Arguments Normal {A} a.
Arguments Throw {A} e.

#[global] Instance completion_ret : MRet Completion := @Normal.

#[global] Instance completion_bind : MBind Completion :=
  fun A B k c =>
    match c with
    | Normal a => k a
    | Throw e => Throw e
    end.

(** Whether [v] converts to a string at all.  A template literal and
    [+] call [toString] on an object: a JSON object that has a key
    [toString] of its own holds no function there, and the conversion
    throws; any other has the inherited method.  An array joins its
    elements, converting each that is not [null] or [undefined]. *)
Fixpoint printable (v : JsValue) : bool :=
  match v with
  | JArr items =>
      (fix all (l : list JsValue) : bool :=
         match l with
         | [] => true
         | x :: rest => printable x && all rest
         end) items
  | JObj fields => bool_decide (fields !! "toString" = None)
  | _ => true
  end.

(** The string a [printable] value converts to. *)
Fixpoint ToString (v : JsValue) : string :=
  match v with
  | JUndefined => "undefined"
  | JNull => "null"
  | JBool true => "true"
  | JBool false => "false"
  | JNum shown => shown
  | JStr s => s
  | JArr items =>
      (fix join (l : list JsValue) : string :=
         match l with
         | [] => EmptyString
         | x :: rest =>
             (if nullish x then EmptyString else ToString x) +:+
             match rest with
             | [] => EmptyString
             | _ => "," +:+ join rest
             end
         end) items
  | JObj _ => "[object Object]"
  end.
Section WithEngine.
Context (engine : Engine).

Definition TypeError (f : Fault) : JsValue :=
  ErrorObject (type_error_message engine f).

(** [v.key] for a string key that is not a built-in property of
    strings, arrays, numbers or booleans (the code reads [image],
    [mimeType], [message], [error], [instructions], [data] and [raw_text]
    only). *)
Definition get (v : JsValue) (key : string) : Completion JsValue :=
  match v with
  | JUndefined | JNull => Throw (TypeError (ReadOfNullish v key))
  | _ => Normal (field v key)
  end.

(** [recv.includes(needle)] with a string literal [needle], for a
    receiver that is not nullish; [callee] is the text of
    [recv.includes] in the program.  Strings search for a substring,
    arrays for an element; nothing else has an [includes] method, and a
    JSON object cannot carry a function under that key. *)
Definition call_includes (callee : string) (recv : JsValue) (needle : string)
  : Completion bool :=
  match recv with
  | JStr s => Normal (includes needle s)
  | JArr items => Normal (existsb (is_string needle) items)
  | _ => Throw (TypeError (NotAFunction callee))
  end.

(** [recv?.includes(needle)], read as a condition: a nullish receiver
    short-circuits to [undefined], which is falsy. *)
Definition opt_includes (callee : string) (recv : JsValue) (needle : string)
  : Completion bool :=
  if nullish recv then Normal false else call_includes callee recv needle.

(** The conversion to a string that a template literal and [+] with a
    string make. *)
Definition coerce (v : JsValue) : Completion string :=
  if printable v then Normal (ToString v) else Throw (TypeError NotPrimitive).

End WithEngine.

(** An engine with Node's wording, for the examples. *)
Definition node : Engine :=
  {| type_error_message f :=
       match f with
       | DestructureNullish v property =>
           "Cannot destructure property '" +:+ property
           +:+ "' of '(intermediate value)' as it is " +:+ ToString v +:+ "."
       | ReadOfNullish v property =>
           "Cannot read properties of " +:+ ToString v
           +:+ " (reading '" +:+ property +:+ "')"
       | NotAFunction callee => callee +:+ " is not a function"
       | NotPrimitive => "Cannot convert object to primitive value"
       end |}.

(** What [JSON.parse(JSON.stringify(v))] makes of [v]: [None] where
    [stringify] leaves the value out.  An [undefined] under a key is
    dropped, in an array it becomes [null], and so does a number that is
    not finite. *)
Fixpoint wire (v : JsValue) : option JsValue :=
  match v with
  | JUndefined => None
  | JNull => Some JNull
  | JBool b => Some (JBool b)
  | JNum shown =>
      if bool_decide (shown ∈ ["NaN"; "Infinity"; "-Infinity"])
      then Some JNull else Some (JNum shown)
  | JStr s => Some (JStr s)
  | JArr items => Some (JArr ((λ x, default JNull (wire x)) <$> items))
  | JObj fields => Some (JObj (omap wire fields))
  end.

End Js.
Export Js.

(** ** The schema library (zod), as far as the handlers use it *)

Module Zod.

(** [z.string()], [z.enum([...])], [z.any()], [.optional()] and
    [.describe(text)]. *)
Inductive ZodType : Type :=
  | z_string
  | z_enum (values : list string)
  | z_any
  | optional (inner : ZodType)
  | describe (inner : ZodType) (text : string).

(** [z.object({ k1: t1, ... })], keys in declaration order. *)
Record ZodObject : Type := z_object { shape : list (string * ZodType) }.

Inductive ZodIssueCode : Type :=
  | invalid_type
  | invalid_enum_value.

Record ZodIssue : Type := { code : ZodIssueCode; path : list string }.

Inductive SafeParseResult : Type :=
  | ParseSuccess (data : JsValue)
  | ParseError (issues : list ZodIssue).

(** One field.  A missing key is presented as [undefined].  Nothing is
    converted: a string schema takes a string and nothing else. *)
Fixpoint parse_type (t : ZodType) (v : JsValue) : JsValue + ZodIssueCode :=
  match t with
  | z_string =>
      match v with
      | JStr _ => inl v
      | _ => inr invalid_type
      end
  | z_enum values =>
      match v with
      | JStr s => if bool_decide (s ∈ values) then inl v else inr invalid_enum_value
      | _ => inr invalid_type
      end
  | z_any => inl v
  | optional inner =>
      match v with
      | JUndefined => inl JUndefined
      | _ => parse_type inner v
      end
  | describe inner _ => parse_type inner v
  end.

Definition is_undefined (v : JsValue) : bool :=
  match v with
  | JUndefined => true
  | _ => false
  end.

(** All fields of the shape, collecting every issue.  Keys outside the
    shape are dropped from the output (zod's default [strip] mode); a key
    is written to the output when the input has it or its parsed value is
    defined. *)
Fixpoint parse_shape (sh : list (string * ZodType)) (fields : gmap string JsValue)
  : gmap string JsValue * list ZodIssue :=
  match sh with
  | [] => (∅, [])
  | (key, t) :: rest =>
      let '(out, issues) := parse_shape rest fields in
      match parse_type t (default JUndefined (fields !! key)) with
      | inl parsed =>
          (if bool_decide (is_Some (fields !! key)) || negb (is_undefined parsed)
           then <[key := parsed]> out else out, issues)
      | inr c => (out, {| code := c; path := [key] |} :: issues)
      end
  end.

(** [schema.safeParse(v)]. *)
Definition safeParse (schema : ZodObject) (v : JsValue) : SafeParseResult :=
  match v with
  | JObj fields =>
      match parse_shape (shape schema) fields with
      | (out, []) => ParseSuccess (JObj out)
      | (_, issues) => ParseError issues
      end
  | _ => ParseError [{| code := invalid_type; path := [] |}]
  end.

End Zod.
Export Zod.

(** ** The route handler *)

Module Route.

(** [await request.json()]: the body does not parse (the runtime rejects
    with a [SyntaxError] carrying [message]) or parses to a value. *)
Inductive NextRequest : Type :=
  | BodyInvalid (message : string)
  | BodyJson (v : JsValue).

(** [NextResponse.json(body, { status })]. *)
Record NextResponse : Type := json { body : JsValue; status : nat }.

(** The argument of [generateObject]: model, schema, the two prompt texts
    and the image part of the user message. *)
Record GenerateObjectCall : Type := {
  model : string;
  schema : ZodObject;
  system : string;
  text : string;
  image : JsValue
}.

(** What [await generateObject(...)] does as the handler sees it: it throws,
    or it returns a result whose [object] property the handler takes. *)
Inductive GenerateObjectResult : Type :=
  | Throws (e : JsValue)
  | Returns (object : JsValue).

Definition Provider : Type := GenerateObjectCall -> GenerateObjectResult.

(** A block of the handler: it completes or throws, and it leaves a log
    of the provider calls it made. *)
Definition Eff (A : Type) : Type :=
  list GenerateObjectCall -> Completion A * list GenerateObjectCall.

#[global] Instance eff_ret : MRet Eff :=
  fun A a calls => (Normal a, calls).

#[global] Instance eff_bind : MBind Eff :=
  fun A B k m calls =>
    match m calls with
    | (Normal a, calls') => k a calls'
    | (Throw e, calls') => (Throw e, calls')
    end.

Definition lift {A} (c : Completion A) : Eff A :=
  fun calls => (c, calls).

Definition call_provider (provider : Provider) (c : GenerateObjectCall) : Eff JsValue :=
  fun calls =>
    (match provider c with
     | Throws e => Throw e
     | Returns o => Normal o
     end, (calls ++ [c])%list).

Definition geminiModel : string := "gemini-2.0-flash-exp".

(** How the handler's promise settles. *)
Inductive Settled : Type :=
  | Resolves (r : NextResponse)
  | Rejects (reason : JsValue).

Section Handler.
Context (engine : Engine).
(** The revisions of the handler differ in these three constants only. *)
Context (extractedDataSchema : ZodObject) (systemPrompt userPrompt : string).

Definition request_json (request : NextRequest) : Completion JsValue :=
  match request with
  | BodyInvalid message => Throw (ErrorObject message)
  | BodyJson v => Normal v
  end.

(** [const { image, mimeType } = body]. *)
Definition destructure (v : JsValue) : Completion (JsValue * JsValue) :=
  if nullish v then Throw (TypeError engine (DestructureNullish v "image"))
  else
    match get engine v "image", get engine v "mimeType" with
    | Normal i, Normal m => Normal (i, m)
    | Throw e, _ | _, Throw e => Throw e
    end.

(** The [try] block. *)
Definition try_block (request : NextRequest) (provider : Provider) : Eff NextResponse :=
  parsed ← lift (request_json request);
  '(image, mimeType) ← lift (destructure parsed);
  if negb (truthy image) then
    mret (json (object [("error", JStr "No image provided")]) 400)
  else
    has_comma ← lift (call_includes engine "image.includes" image ",");
    imageData ← lift
      (if has_comma : bool then Normal image
       else
         type ← coerce engine (or_else mimeType (JStr "image/jpeg"));
         data ← coerce engine image;
         Normal (JStr ("data:" +:+ type +:+ ";base64," +:+ data)));
    extractedData ←
      call_provider provider
        {| model := geminiModel; schema := extractedDataSchema;
           system := systemPrompt; text := userPrompt; image := imageData |};
    if negb (truthy extractedData) then
      mret (json (object [("error", JStr "Failed to extract data from image")]) 500)
    else
      mret (json (object [("success", JBool true); ("data", extractedData)]) 200).

(** [e.message?.includes(needle)] *)
Definition message_includes (error : JsValue) (needle : string) : Completion bool :=
  match get engine error "message" with
  | Normal message => opt_includes engine "error.message?.includes" message needle
  | Throw e => Throw e
  end.

(** The [catch (error: any)] block.  It is not itself guarded, so what it
    throws leaves the handler. *)
Definition catch_block (error : JsValue) : Completion NextResponse :=
  match message_includes error "API_KEY" with
  | Throw e => Throw e
  | Normal true =>
      Normal (json (object
        [("error", JStr "Invalid API key. Please check your GOOGLE_GEMINI_API_KEY in .env.local");
         ("instructions", JStr "Get a new API key from https://aistudio.google.com/apikey")]) 401)
  | Normal false =>
      match
        match message_includes error "quota" with
        | Normal false => message_includes error "rate limit"
        | c => c
        end
      with
      | Throw e => Throw e
      | Normal true =>
          match get engine error "message" with
          | Throw e => Throw e
          | Normal message =>
              Normal (json (object
                [("error", JStr "API rate limit exceeded. Please try again later or upgrade your plan.");
                 ("details", message)]) 429)
          end
      | Normal false =>
          match get engine error "message" with
          | Throw e => Throw e
          | Normal message =>
              Normal (json (object
                [("error", JStr "Failed to process image with Gemini API");
                 ("details", or_else message (JStr "Unknown error"));
                 ("suggestion", JStr "Please try again or use Basic OCR mode")]) 500)
          end
      end
  end.

(** [export async function POST(request)]: how the promise settles, and the
    provider calls made on the way. *)
Definition POST (request : NextRequest) (provider : Provider)
  : Settled * list GenerateObjectCall :=
  match try_block request provider [] with
  | (Normal r, calls) => (Resolves r, calls)
  | (Throw error, calls) =>
      (match catch_block error with
       | Normal r => Resolves r
       | Throw reason => Rejects reason
       end, calls)
  end.

End Handler.

End Route.

(** ** The three revisions of the handler *)

(** The double-quote character, for the prompt texts. *)
Definition dq : string := String (Ascii.ascii_of_nat 34) EmptyString.

(** [src/app/page.tsx], the expense-tracking revision with the long
    prompt (the last file of the bundle). *)
Module Expense.
Import Route.

Definition purposes : list string :=
  ["Conveyance"; "Train"; "Bus"; "Food"; "Hotel"; "Project Expense"; "Other"].

(** Fine-tuned schema for expense tracking. *)
Definition extractedDataSchema : ZodObject :=
  z_object
    [("bill_no", describe z_string
        "Bill number, invoice number, or receipt number extracted from the document. If not found, return 'N/A'");
     ("amount", describe z_string
        "Total amount or bill amount. Extract the final total value with currency symbol if present. If not found, return '0'");
     ("purpose", describe (z_enum purposes)
        "Intelligently categorize the expense purpose based on document content. Analyze merchant name, items purchased, and context to determine the most appropriate category.");
     ("raw_text", describe z_string
        "All extracted text from the image for reference")].

Definition systemPrompt : string :=
  "You are an expert expense tracking assistant with perfect OCR accuracy.

Your task is to extract specific information from receipts, bills, and invoices for expense tracking.

REQUIRED FIELDS TO EXTRACT:

1. BILL NUMBER (bill_no):
   - Look for: Invoice #, Receipt #, Bill No, Transaction ID, Order #
   - Extract the alphanumeric identifier
   - If not found, return "
  +:+ dq +:+ "N/A"
  +:+ dq +:+ "

2. AMOUNT (amount):
   - Extract the FINAL TOTAL amount (not subtotal)
   - Include currency symbol if present (₹, $, €, etc.)
   - Look for: Total, Grand Total, Amount Due, Net Amount
   - If multiple amounts, choose the largest/final one
   - If not found, return "
  +:+ dq +:+ "0"
  +:+ dq +:+ "

3. PURPOSE (purpose):
   Intelligently categorize into ONE of these categories based on context:
   
   - "
  +:+ dq +:+ "Conveyance"
  +:+ dq +:+ ": Auto rickshaw, taxi, cab, Uber, Ola, local transport, parking
   - "
  +:+ dq +:+ "Train"
  +:+ dq +:+ ": Railway tickets, train bookings, IRCTC, metro
   - "
  +:+ dq +:+ "Bus"
  +:+ dq +:+ ": Bus tickets, bus passes, shuttle services
   - "
  +:+ dq +:+ "Food"
  +:+ dq +:+ ": Restaurants, cafes, food delivery, Swiggy, Zomato, meals, snacks
   - "
  +:+ dq +:+ "Hotel"
  +:+ dq +:+ ": Hotel stays, accommodation, lodging, room charges
   - "
  +:+ dq +:+ "Project Expense"
  +:+ dq +:+ ": Office supplies, equipment, software, tools, materials, stationery
   - "
  +:+ dq +:+ "Other"
  +:+ dq +:+ ": Anything that doesn't fit the above categories

CATEGORIZATION RULES:
- Analyze merchant name, items purchased, and document content
- Use context clues (e.g., "
  +:+ dq +:+ "Zomato"
  +:+ dq +:+ " → Food, "
  +:+ dq +:+ "Uber"
  +:+ dq +:+ " → Conveyance)
- For ambiguous cases, use "
  +:+ dq +:+ "Other"
  +:+ dq +:+ "
- Be consistent and logical in categorization

ACCURACY:
- Extract exact bill numbers (preserve formatting)
- Be precise with amounts (include decimals)
- Use contextual intelligence for categorization".

Definition userPrompt : string :=
  "Extract the bill number, total amount, and intelligently categorize the expense purpose from this receipt/invoice.".

Definition POST (engine : Engine) : NextRequest -> Provider -> Settled * list GenerateObjectCall :=
  Route.POST engine extractedDataSchema systemPrompt userPrompt.

End Expense.

(** [src/app/page.tsx], the expense-tracking revision with the compact
    prompt: same schema, same handler body. *)
Module ExpenseCompact.
Import Route.

Definition extractedDataSchema : ZodObject := Expense.extractedDataSchema.

Definition systemPrompt : string :=
  "Extract fields: bill_no, amount, purpose.
bill_no: Find Invoice/Receipt/Bill/Order/Transaction number, else "
  +:+ dq +:+ "N/A"
  +:+ dq +:+ ".
amount: Final total only; include currency; if missing "
  +:+ dq +:+ "0"
  +:+ dq +:+ ".
purpose: Classify as one: Conveyance/taxi/auto/uber/ola/parking, Train/railway/irctc/metro, Bus/bus/shuttle, Food/restaurant/cafe/zomato/swiggy/meal, Hotel/accommodation/lodging/room, Project Expense/office/supplies/equipment/software/tools, Other.
Use context from merchant/items. Match largest/final amount. Be exact; keep formatting.
".

Definition userPrompt : string :=
  "Extract bill_no, amount, purpose.".

Definition POST (engine : Engine) : NextRequest -> Provider -> Settled * list GenerateObjectCall :=
  Route.POST engine extractedDataSchema systemPrompt userPrompt.

End ExpenseCompact.

(** [src/app/api/extract/route.ts], the general document revision. *)
Module Document.
Import Route.

Definition extractedDataSchema : ZodObject :=
  z_object
    [("document_type", describe z_string
        "Type of document detected (e.g., receipt, invoice, form, letter, menu, sign, etc.)");
     ("raw_text", describe z_string
        "All extracted text from the image, preserving layout and formatting as much as possible");
     ("structured_data", describe (optional z_any)
        "Optional structured data based on document type. For receipts: merchant, items, pricing. For forms: field-value pairs. For other documents: relevant key information.")].

Definition systemPrompt : string :=
  "You are an expert OCR and document understanding system with perfect accuracy.

Your task is to extract ALL text from images and provide intelligent analysis.

EXTRACTION RULES:
1. Extract every piece of visible text, even if partially obscured or low quality
2. Preserve the layout and structure as much as possible in raw_text
3. Correct obvious OCR errors using context (e.g., "
  +:+ dq +:+ "0"
  +:+ dq +:+ " vs "
  +:+ dq +:+ "O"
  +:+ dq +:+ ", "
  +:+ dq +:+ "1"
  +:+ dq +:+ " vs "
  +:+ dq +:+ "I"
  +:+ dq +:+ ", "
  +:+ dq +:+ "5"
  +:+ dq +:+ " vs "
  +:+ dq +:+ "S"
  +:+ dq +:+ ")
4. Identify the document type (receipt, invoice, form, menu, sign, letter, etc.)

STRUCTURED DATA (OPTIONAL):
- For receipts/invoices: Extract merchant info, items, prices, totals
- For forms: Extract field names and values
- For menus: Extract categories and items with prices
- For signs/posters: Extract headings and key information
- For letters/documents: Extract sender, recipient, date, subject
- For any other type: Extract whatever structured information makes sense

Be accurate with numbers, dates, and amounts. Return null or omit fields that don't apply to the document type.".

Definition userPrompt : string :=
  "Extract all text from this image. Identify the document type and provide structured data if applicable.".

Definition POST (engine : Engine) : NextRequest -> Provider -> Settled * list GenerateObjectCall :=
  Route.POST engine extractedDataSchema systemPrompt userPrompt.

End Document.

(** ** The provider library (AI SDK), as far as the handlers rely on it *)

Module Sdk.
Import Route.

(** What the hosted model answers to one call: a failure of the call, or
    the JSON value it generated. *)
Inductive ModelReply : Type :=
  | ReplyError (e : JsValue)
  | ReplyJson (candidate : JsValue).

(** [generateObject]: the candidate is checked against the schema of the
    call; what passes is returned as parsed, what fails is thrown as an
    [Error] whose wording is the library's ([describe_invalid]). *)
Definition generateObject (describe_invalid : JsValue -> list ZodIssue -> string)
  (reply : ModelReply) : Provider :=
  fun call =>
    match reply with
    | ReplyError e => Throws e
    | ReplyJson candidate =>
        match safeParse (schema call) candidate with
        | ParseSuccess data => Returns data
        | ParseError issues => Throws (ErrorObject (describe_invalid candidate issues))
        end
    end.

End Sdk.

(** ** The client component *)

(** The expense-tracker revision of [ImageOCR] (the second component of
    [src/unnamed/part_000]): one extraction mode, the remote one. *)
Module ImageOCR.

(** A [File]: the component reads its [type] only. *)
Record File : Type := { name : string; type : string }.

(** The [useState] cells of the component.  [previewUrl] holds the file
    the object URL was made from. *)
Record State : Type := {
  image : option File;
  previewUrl : option File;
  text : JsValue;
  structuredData : JsValue;
  status : string;
  isProcessing : bool;
  error : JsValue;
  apiKeyMissing : bool
}.

Definition initial : State :=
  {| image := None; previewUrl := None; text := JStr EmptyString;
     structuredData := JNull; status := EmptyString; isProcessing := false;
     error := JNull; apiKeyMissing := false |}.

Definition setImage (v : option File) (s : State) : State :=
  {| image := v; previewUrl := previewUrl s; text := text s;
     structuredData := structuredData s; status := status s;
     isProcessing := isProcessing s; error := error s;
     apiKeyMissing := apiKeyMissing s |}.

Definition setPreviewUrl (v : option File) (s : State) : State :=
  {| image := image s; previewUrl := v; text := text s;
     structuredData := structuredData s; status := status s;
     isProcessing := isProcessing s; error := error s;
     apiKeyMissing := apiKeyMissing s |}.

Definition setText (v : JsValue) (s : State) : State :=
  {| image := image s; previewUrl := previewUrl s; text := v;
     structuredData := structuredData s; status := status s;
     isProcessing := isProcessing s; error := error s;
     apiKeyMissing := apiKeyMissing s |}.

Definition setStructuredData (v : JsValue) (s : State) : State :=
  {| image := image s; previewUrl := previewUrl s; text := text s;
     structuredData := v; status := status s;
     isProcessing := isProcessing s; error := error s;
     apiKeyMissing := apiKeyMissing s |}.

Definition setStatus (v : string) (s : State) : State :=
  {| image := image s; previewUrl := previewUrl s; text := text s;
     structuredData := structuredData s; status := v;
     isProcessing := isProcessing s; error := error s;
     apiKeyMissing := apiKeyMissing s |}.

Definition setIsProcessing (v : bool) (s : State) : State :=
  {| image := image s; previewUrl := previewUrl s; text := text s;
     structuredData := structuredData s; status := status s;
     isProcessing := v; error := error s;
     apiKeyMissing := apiKeyMissing s |}.

Definition setError (v : JsValue) (s : State) : State :=
  {| image := image s; previewUrl := previewUrl s; text := text s;
     structuredData := structuredData s; status := status s;
     isProcessing := isProcessing s; error := v;
     apiKeyMissing := apiKeyMissing s |}.

Definition setApiKeyMissing (v : bool) (s : State) : State :=
  {| image := image s; previewUrl := previewUrl s; text := text s;
     structuredData := structuredData s; status := status s;
     isProcessing := isProcessing s; error := error s;
     apiKeyMissing := v |}.

(** A run of setters in program order: [s |> f |> g] applies [f] first. *)
Notation "s |> f" := (f s) (at level 45, left associativity, only parsing).

Definition processFile (file : File) (s : State) : State :=
  if negb (String.prefix "image/" (type file)) then
    s |> setError (JStr "Please upload a valid image file.")
  else
    s |> setImage (Some file)
      |> setPreviewUrl (Some file)
      |> setError JNull
      |> setText (JStr EmptyString)
      |> setStructuredData JNull
      |> setStatus EmptyString
      |> setApiKeyMissing false.

Definition reset (s : State) : State :=
  s |> setImage None
    |> setPreviewUrl None
    |> setText (JStr EmptyString)
    |> setStructuredData JNull
    |> setError JNull
    |> setApiKeyMissing false.

(** One call of [performAIExtraction] that is suspended at an [await]:
    the file it captured when it started, and where it waits. *)
Inductive Stage : Type :=
  | Reading
  | Fetching (request : JsValue).

Record Attempt : Type := { file : File; stage : Stage }.

(** How the [FileReader] ends, and how [fetch] followed by
    [response.json()] ends. *)
Inductive ReadOutcome : Type :=
  | Loaded (result : JsValue)
  | ReadFailed (event : JsValue).

Inductive FetchOutcome : Type :=
  | FetchRejected (err : JsValue)
  | Responded (ok : bool) (result : JsValue).

Section Component.
Context (engine : Engine).

(** [finally { ... }] *)
Definition finally (s : State) : State :=
  s |> setIsProcessing false |> setStatus EmptyString.

(** [catch (err: any) { ... }], followed by the [finally] block (which
    also runs when the [catch] block itself throws). *)
Definition catch (err : JsValue) (s : State) : State :=
  match get engine err "message" with
  | Normal message =>
      match coerce engine (or_else message (JStr EmptyString)) with
      | Normal shown =>
          finally (s |> setError (JStr ("Failed to connect to AI service. " +:+ shown)))
      | Throw _ => finally s
      end
  | Throw _ => finally s
  end.

(** [performAIExtraction] up to its first [await]. *)
Definition start (s : State) : option (State * Attempt) :=
  match image s with
  | None => None
  | Some captured =>
      Some (s |> setIsProcessing true
              |> setError JNull
              |> setText (JStr EmptyString)
              |> setStructuredData JNull
              |> setStatus "Uploading to Gemini AI...",
            {| file := captured; stage := Reading |})
  end.

(** From [await base64Promise] to [await fetch(...)]. *)
Definition after_read (a : Attempt) (o : ReadOutcome) (s : State) : State * option Attempt :=
  match o with
  | ReadFailed event => (catch event s, None)
  | Loaded base64Image =>
      (s |> setStatus "Analyzing image with AI...",
       Some {| file := file a;
               stage := Fetching (object [("image", base64Image);
                                          ("mimeType", JStr (type (file a)))]) |})
  end.

(** From the response to the end of the function. *)
Definition after_fetch (o : FetchOutcome) (s : State) : State :=
  match o with
  | FetchRejected err => catch err s
  | Responded false result =>
      match get engine result "error" with
      | Throw e => catch e s
      | Normal err =>
          match opt_includes engine "result.error?.includes" err "API key" with
          | Throw e => catch e s
          | Normal true =>
              let s := s |> setApiKeyMissing true in
              match
                shown ← coerce engine err;
                instructions ← coerce engine (or_else (field result "instructions")
                                                      (JStr EmptyString));
                Normal (shown +:+ " " +:+ instructions)
              with
              | Normal message => finally (s |> setError (JStr message))
              | Throw e => catch e s
              end
          | Normal false =>
              finally (s |> setError (or_else err (JStr "Failed to extract text")))
          end
      end
  | Responded true result =>
      match get engine result "data" with
      | Throw e => catch e s
      | Normal extractedData =>
          let s := s |> setStructuredData extractedData in
          match get engine extractedData "raw_text" with
          | Throw e => catch e s
          | Normal raw_text =>
              finally (s |> setText (or_else raw_text (JStr EmptyString)))
          end
      end
  end.

(** The page as a whole: the state cells, the suspended calls, and the
    number the next call gets. *)
Record Page : Type := {
  session : State;
  pending : gmap nat Attempt;
  next : nat
}.

Definition mount : Page :=
  {| session := initial; pending := ∅; next := 0 |}.

(** What can happen to the page: the user picks or drops a file, clicks
    the extract button, clears the selection, or a suspended call is
    resumed by its reader or by its response. *)
Inductive Event : Type :=
  | SelectFile (f : File)
  | ClickExtract
  | ClickReset
  | ReaderDone (id : nat) (o : ReadOutcome)
  | FetchDone (id : nat) (o : FetchOutcome).

(** The extract button is rendered under
    [image && !structuredData && !isProcessing]. *)
Definition extract_button (s : State) : bool :=
  bool_decide (is_Some (image s)) && negb (truthy (structuredData s))
  && negb (isProcessing s).

Definition step (p : Page) (ev : Event) : Page :=
  match ev with
  | SelectFile f =>
      {| session := processFile f (session p); pending := pending p; next := next p |}
  | ClickReset =>
      {| session := reset (session p); pending := pending p; next := next p |}
  | ClickExtract =>
      if extract_button (session p) then
        match start (session p) with
        | Some (s, a) =>
            {| session := s; pending := <[next p := a]> (pending p); next := S (next p) |}
        | None => p
        end
      else p
  | ReaderDone id o =>
      match pending p !! id with
      | Some ({| file := f; stage := Reading |} as a) =>
          match after_read a o (session p) with
          | (s, Some a') =>
              {| session := s; pending := <[id := a']> (pending p); next := next p |}
          | (s, None) =>
              {| session := s; pending := delete id (pending p); next := next p |}
          end
      | _ => p
      end
  | FetchDone id o =>
      match pending p !! id with
      | Some {| file := f; stage := Fetching _ |} =>
          {| session := after_fetch o (session p);
             pending := delete id (pending p); next := next p |}
      | _ => p
      end
  end.

Definition run (events : list Event) (p : Page) : Page :=
  foldl step p events.

End Component.

End ImageOCR.

(** ** Sample data for the examples *)

Module Samples.

Definition taxi : ImageOCR.File :=
  {| ImageOCR.name := "taxi.png"; ImageOCR.type := "image/png" |}.

Definition lunch : ImageOCR.File :=
  {| ImageOCR.name := "lunch.png"; ImageOCR.type := "image/png" |}.

Definition taxi_data : JsValue :=
  object [("bill_no", JStr "N/A"); ("amount", JStr "245.00");
          ("purpose", JStr "Conveyance"); ("raw_text", JStr "UBER")].

Definition taxi_response : JsValue :=
  object [("success", JBool true); ("data", taxi_data)].

Definition taxi_request : JsValue :=
  object [("image", JStr "data:image/png;base64,AAAA");
          ("mimeType", JStr "image/png")].

(** The taxi receipt is being analyzed when the lunch receipt is picked. *)
Definition second_selected : ImageOCR.Page :=
  ImageOCR.run node
    [ImageOCR.SelectFile taxi; ImageOCR.ClickExtract;
     ImageOCR.ReaderDone 0 (ImageOCR.Loaded (JStr "data:image/png;base64,AAAA"));
     ImageOCR.SelectFile lunch]
    ImageOCR.mount.

Definition blank_candidate : JsValue :=
  object [("bill_no", JStr EmptyString); ("amount", JStr EmptyString);
          ("purpose", JStr "Other"); ("raw_text", JStr "TOTAL")].

Definition sentinel_candidate : JsValue :=
  object [("bill_no", JStr "N/A"); ("amount", JStr "0");
          ("purpose", JStr "Food"); ("raw_text", JStr "CAFE")].

End Samples.

(** ** Vocabulary of the contract *)

Module Contract.

(** The seven literals of §3, one by one. *)
Definition is_purpose_literal (p : string) : Prop :=
  p = "Conveyance" ∨ p = "Train" ∨ p = "Bus" ∨ p = "Food" ∨ p = "Hotel"
  ∨ p = "Project Expense" ∨ p = "Other".

(** The candidate carries the four fields, each a string. *)
Definition has_fields (v : JsValue) (bill_no amount purpose raw_text : string) : Prop :=
  field v "bill_no" = JStr bill_no ∧ field v "amount" = JStr amount
  ∧ field v "purpose" = JStr purpose ∧ field v "raw_text" = JStr raw_text.

(** A candidate that meets the extraction schema of §3. *)
Definition conforms (v : JsValue) : Prop :=
  ∃ b a p r, has_fields v b a p r ∧ is_purpose_literal p.


(** A data URI: the [data:] scheme, then media type and encoding, a comma,
    and the data. *)
Definition is_data_uri (s : string) : bool :=
  String.prefix "data:" s && includes "," s.

(** The media type put into a synthesized data URI. *)
Definition mime_of (mimeType : JsValue) : string :=
  if truthy mimeType then ToString mimeType else "image/jpeg".

(** The payload for a string image can be built: the image has a comma
    and is passed on as it is, or [mimeType] converts to a string. *)
Definition payload_defined (img : string) (mimeType : JsValue) : bool :=
  includes "," img || printable mimeType.

(** The call the handler is to make for a string image. *)
Definition call_for (extractedDataSchema : ZodObject) (systemPrompt userPrompt : string)
  (img : string) (mimeType : JsValue) : Route.GenerateObjectCall :=
  {| Route.model := Route.geminiModel; Route.schema := extractedDataSchema;
     Route.system := systemPrompt; Route.text := userPrompt;
     Route.image :=
       if includes "," img then JStr img
       else JStr ("data:" +:+ mime_of mimeType +:+ ";base64," +:+ img) |}.

(** The responses of §6 that do not depend on the error. *)
Definition no_image : Route.NextResponse :=
  Route.json (object [("error", JStr "No image provided")]) 400.

Definition no_data : Route.NextResponse :=
  Route.json (object [("error", JStr "Failed to extract data from image")]) 500.

Definition success (data : JsValue) : Route.NextResponse :=
  Route.json (object [("success", JBool true); ("data", data)]) 200.

(** The failure responses of §6 that §4.4 assigns to a caught error. *)
Definition invalid_key : Route.NextResponse :=
  Route.json (object
    [("error", JStr "Invalid API key. Please check your GOOGLE_GEMINI_API_KEY in .env.local");
     ("instructions", JStr "Get a new API key from https://aistudio.google.com/apikey")]) 401.

Definition rate_limited (details : JsValue) : Route.NextResponse :=
  Route.json (object
    [("error", JStr "API rate limit exceeded. Please try again later or upgrade your plan.");
     ("details", details)]) 429.

Definition provider_failure (details : JsValue) : Route.NextResponse :=
  Route.json (object
    [("error", JStr "Failed to process image with Gemini API");
     ("details", details);
     ("suggestion", JStr "Please try again or use Basic OCR mode")]) 500.

(** [classify] of §4.4, in its order of precedence: credential first,
    then quota or rate limit, then everything else.  A message that is a
    string is searched for the pattern, one that is an array for an
    element equal to it. *)
Definition message_has (needle : string) (message : JsValue) : bool :=
  match message with
  | JStr s => includes needle s
  | JArr items => existsb (is_string needle) items
  | _ => false
  end.

Definition classify (e : JsValue) : Route.NextResponse :=
  let message := field e "message" in
  if message_has "API_KEY" message then invalid_key
  else if message_has "quota" message || message_has "rate limit" message
       then rate_limited message
       else provider_failure (or_else message (JStr "Unknown error")).

(** What a thrown value says: [Some s] when its [message] is the string
    [s], [None] when it has no message. *)
Definition says (e : JsValue) (message : option string) : Prop :=
  nullish e = false ∧
  match message with
  | Some s => field e "message" = JStr s
  | None => nullish (field e "message") = true
  end.

Definition mentions (needle : string) (message : option string) : bool :=
  match message with
  | Some s => includes needle s
  | None => false
  end.

(** The thrown values the [catch] block can classify: anything but [null]
    and [undefined] whose [message] is absent, [null], a string or an
    array.  Every [Error] instance is one. *)
Definition classifiable (e : JsValue) : bool :=
  negb (nullish e) &&
  match field e "message" with
  | JUndefined | JNull | JStr _ | JArr _ => true
  | _ => false
  end.

End Contract.
Import Contract.

(** ** What the component renders *)

Module View.
Import ImageOCR.

(** What [fetch] hands to the component for a response of the handler:
    [response.ok] holds for the statuses 200 to 299, [response.json()]
    is the body as it comes out of the JSON text [NextResponse.json]
    made of it. *)
Definition respond (r : Route.NextResponse) : FetchOutcome :=
  Responded ((200 <=? Route.status r)%nat && (Route.status r <=? 299)%nat)
            (default JUndefined (wire (Route.body r))).

(** The purpose card: one line
    [structuredData.purpose === literal && <span>label</span>] per
    literal, in this order. *)
Definition purpose_badges : list (string * string) :=
  [("Conveyance", "🚗 Conveyance"); ("Train", "🚆 Train"); ("Bus", "🚌 Bus");
   ("Food", "🍽️ Food"); ("Hotel", "🏨 Hotel");
   ("Project Expense", "💼 Project Expense"); ("Other", "📋 Other")].

Definition badges (structuredData : JsValue) : list string :=
  snd <$> List.filter (λ b, is_string (fst b) (field structuredData "purpose"))
            purpose_badges.

(** The results column: the expense cards when [structuredData] is
    truthy, otherwise the empty panel, whose copy and download buttons
    are [disabled={!text}] and whose footer is under [text && ...]. *)
Inductive Results : Type :=
  | Cards (bill_no amount : JsValue) (purpose : list string) (raw_text : JsValue)
  | EmptyPanel (buttons_enabled footer : bool).

Definition results (s : State) : Results :=
  if truthy (structuredData s) then
    Cards (field (structuredData s) "bill_no") (field (structuredData s) "amount")
          (badges (structuredData s)) (field (structuredData s) "raw_text")
  else EmptyPanel (truthy (text s)) (truthy (text s)).

(** [copyToClipboard]: what is written to the clipboard, if anything. *)
Definition copyToClipboard (s : State) : option JsValue :=
  if truthy (text s) then Some (text s) else None.

(** [downloadText]: the name and content of the file offered, if any. *)
Definition downloadText (s : State) : option (string * JsValue) :=
  if truthy (text s) then Some ("extracted-text.txt", text s) else None.

(** The error panel: the message, and whether the setup instructions are
    shown under it. *)
Definition error_panel (s : State) : option (JsValue * bool) :=
  if truthy (error s) then Some (error s, apiKeyMissing s) else None.

(** The progress panel: [status || "Processing..."] while
    [isProcessing]. *)
Definition progress_panel (s : State) : option string :=
  if isProcessing s
  then Some (if String.eqb (status s) EmptyString then "Processing..." else status s)
  else None.

End View.

(** ** Vocabulary of the further properties *)

Module Conditions.
Import ImageOCR.

(** The requests for which the handler gets as far as the provider: a
    body that is not nullish whose [image] is a non-empty string or an
    array, and for which the payload can be built: the image has a comma
    (as a substring, or as an element of the array), or both [mimeType]
    and the image convert to strings. *)
Definition reaches_provider (request : Route.NextRequest) : bool :=
  match request with
  | Route.BodyInvalid _ => false
  | Route.BodyJson v =>
      negb (nullish v) &&
      match field v "image" with
      | JStr s =>
          negb (String.eqb s EmptyString)
          && (includes "," s || printable (field v "mimeType"))
      | JArr items =>
          existsb (is_string ",") items
          || (printable (field v "mimeType") && printable (JArr items))
      | _ => false
      end
  end.

(** The fault a request raises in the [try] block before the provider is
    reached, if any: the body does not parse, the body is [null], the
    image is truthy but has no [includes] method (a number, [true], an
    object), or the payload cannot be built because [mimeType] or the
    image does not convert to a string. *)
Definition request_fault (engine : Engine) (request : Route.NextRequest)
  : option JsValue :=
  match request with
  | Route.BodyInvalid message => Some (ErrorObject message)
  | Route.BodyJson v =>
      if nullish v then Some (TypeError engine (DestructureNullish v "image"))
      else if negb (truthy (field v "image")) then None
      else match field v "image" with
           | JStr s =>
               if includes "," s || printable (field v "mimeType") then None
               else Some (TypeError engine NotPrimitive)
           | JArr items =>
               if existsb (is_string ",") items
                  || (printable (field v "mimeType") && printable (JArr items))
               then None
               else Some (TypeError engine NotPrimitive)
           | _ => Some (TypeError engine (NotAFunction "image.includes"))
           end
  end.

(** No extraction call is suspended: nothing is being processed, and
    text is only shown along with a result. *)
Definition at_rest (p : Page) : Prop :=
  pending p = ∅ ∧ isProcessing (session p) = false
  ∧ (truthy (text (session p)) = true → truthy (structuredData (session p)) = true).

(** One extraction call is suspended: the page is processing and shows
    neither text nor result. *)
Definition in_flight (p : Page) : Prop :=
  ∃ id a, pending p = {[id := a]} ∧ isProcessing (session p) = true
    ∧ text (session p) = JStr EmptyString ∧ structuredData (session p) = JNull.

End Conditions.

(** * Properties *)

(** ** The schema validator *)

Section Validator.

Lemma field_is_string v key s :
  field v key = JStr s ↔ ∃ fields, v = JObj fields ∧ fields !! key = Some (JStr s).
Proof.
  split.
  - destruct v as [| | | | |items|fields]; simpl; try discriminate.
    destruct (fields !! key) as [x|] eqn:E; simpl; [|discriminate].
    intros ->. eauto.
  - intros (fields & -> & E). simpl. by rewrite E.
Qed.

Lemma purposes_are_the_literals p :
  p ∈ Expense.purposes ↔ is_purpose_literal p.
Proof.
  unfold Expense.purposes, is_purpose_literal.
  rewrite !elem_of_cons, elem_of_nil. tauto.
Qed.

Lemma parse_string_inv d v o :
  parse_type (describe z_string d) v = inl o → ∃ s, v = JStr s ∧ o = JStr s.
Proof. destruct v; simpl; intros [= <-]; eauto. Qed.

Lemma parse_enum_inv d values v o :
  parse_type (describe (z_enum values) d) v = inl o →
  ∃ s, v = JStr s ∧ o = JStr s ∧ s ∈ values.
Proof.
  destruct v; simpl; try discriminate.
  case_bool_decide; intros [= <-]; eauto.
Qed.

Lemma lookup_of_default (fields : gmap string JsValue) key s :
  default JUndefined (fields !! key) = JStr s → fields !! key = Some (JStr s).
Proof. destruct (fields !! key); simpl; congruence. Qed.

(** No issue on a shape means no issue on its first key and none on the
    rest. *)
Lemma parse_shape_clean key t rest fields :
  (parse_shape ((key, t) :: rest) fields).2 = [] →
  (∃ o, parse_type t (default JUndefined (fields !! key)) = inl o)
  ∧ (parse_shape rest fields).2 = [].
Proof.
  simpl. destruct (parse_shape rest fields) as [out issues].
  destruct (parse_type t _) as [o|c]; simpl; [eauto|discriminate].
Qed.

Lemma safeParse_success schema v data :
  safeParse schema v = ParseSuccess data →
  ∃ fields, v = JObj fields
    ∧ (parse_shape (shape schema) fields).2 = []
    ∧ data = JObj (parse_shape (shape schema) fields).1.
Proof.
  unfold safeParse.
  destruct v as [| | | | |items|fields]; try discriminate.
  destruct (parse_shape (shape schema) fields) as [out [|i issues]] eqn:E;
    [|discriminate].
  intros [= <-]. exists fields. by rewrite E.
Qed.

Lemma safeParse_error schema v issues :
  safeParse schema v = ParseError issues → issues ≠ [].
Proof.
  unfold safeParse.
  destruct v as [| | | | |items|fields]; try (intros [= <-]; discriminate).
  destruct (parse_shape (shape schema) fields) as [out [|i rest]];
    [discriminate|].
  intros [= <-]. discriminate.
Qed.

(** What the expense schema does with a conforming candidate. *)
Lemma expense_accepts v b a p r :
  has_fields v b a p r → is_purpose_literal p →
  safeParse Expense.extractedDataSchema v
  = ParseSuccess (object [("bill_no", JStr b); ("amount", JStr a);
                          ("purpose", JStr p); ("raw_text", JStr r)]).
Proof.
  intros (Hb & Ha & Hp & Hr) Hlit.
  apply field_is_string in Hb as (fields & -> & Hb).
  apply field_is_string in Ha as (? & [= <-] & Ha).
  apply field_is_string in Hp as (? & [= <-] & Hp).
  apply field_is_string in Hr as (? & [= <-] & Hr).
  apply purposes_are_the_literals in Hlit.
  unfold safeParse, Expense.extractedDataSchema. simpl.
  rewrite Hb, Ha, Hp, Hr. simpl.
  rewrite (bool_decide_eq_true_2 _ Hlit). simpl.
  reflexivity.
Qed.

Lemma expense_accepted_inv v data :
  safeParse Expense.extractedDataSchema v = ParseSuccess data →
  ∃ b a p r, has_fields v b a p r ∧ is_purpose_literal p
    ∧ data = object [("bill_no", JStr b); ("amount", JStr a);
                     ("purpose", JStr p); ("raw_text", JStr r)].
Proof.
  intros Hok.
  destruct (safeParse_success _ _ _ Hok) as (fields & -> & Hclean & _).
  unfold Expense.extractedDataSchema in Hclean. simpl shape in Hclean.
  apply parse_shape_clean in Hclean as [(ob & Hb) Hclean].
  apply parse_shape_clean in Hclean as [(oa & Ha) Hclean].
  apply parse_shape_clean in Hclean as [(op & Hp) Hclean].
  apply parse_shape_clean in Hclean as [(or & Hr) _].
  apply parse_string_inv in Hb as (b & Hb & _).
  apply parse_string_inv in Ha as (a & Ha & _).
  apply parse_enum_inv in Hp as (p & Hp & _ & Hin).
  apply parse_string_inv in Hr as (r & Hr & _).
  apply lookup_of_default in Hb, Ha, Hp, Hr.
  apply purposes_are_the_literals in Hin.
  assert (Hf : has_fields (JObj fields) b a p r).
  { unfold has_fields. simpl. by rewrite Hb, Ha, Hp, Hr. }
  exists b, a, p, r. split; [done|]. split; [done|].
  rewrite (expense_accepts _ _ _ _ _ Hf Hin) in Hok. congruence.
Qed.

(** C1. The validator of the expense schema accepts a candidate only if
    [bill_no], [amount], [purpose] and [raw_text] are all present as
    strings and [purpose] is one of the seven literals, and then returns
    exactly these four strings; every other candidate is rejected with a
    non-empty list of issues, nothing being converted or filled in. *)
Theorem schema_validation (candidate : JsValue) :
  match safeParse Expense.extractedDataSchema candidate with
  | ParseSuccess data =>
      ∃ b a p r, has_fields candidate b a p r ∧ is_purpose_literal p
        ∧ data = object [("bill_no", JStr b); ("amount", JStr a);
                         ("purpose", JStr p); ("raw_text", JStr r)]
  | ParseError issues => issues ≠ [] ∧ ¬ conforms candidate
  end.
Proof.
  destruct (safeParse Expense.extractedDataSchema candidate) as [data|issues] eqn:E.
  - by apply expense_accepted_inv.
  - split; [by eapply safeParse_error|].
    intros (b & a & p & r & Hf & Hlit).
    rewrite (expense_accepts _ _ _ _ _ Hf Hlit) in E. discriminate.
Qed.

(** The general document revision asks for other fields. *)
Example document_revision_fields :
  safeParse Document.extractedDataSchema
    (object [("document_type", JStr "receipt"); ("raw_text", JStr "UBER")])
  = ParseSuccess (object [("document_type", JStr "receipt"); ("raw_text", JStr "UBER")]).
Proof. vm_compute. reflexivity. Qed.

Example parse_collects_issues :
  safeParse Expense.extractedDataSchema
    (object [("bill_no", JNull); ("amount", JStr "245.00"); ("purpose", JStr "Taxi")])
  = ParseError [ {| code := invalid_type; path := ["bill_no"] |};
                 {| code := invalid_enum_value; path := ["purpose"] |};
                 {| code := invalid_type; path := ["raw_text"] |} ].
Proof. vm_compute. reflexivity. Qed.

End Validator.

(** An accepted candidate whose [bill_no] and [amount] are empty. *)
Lemma empty_fields_accepted :
  safeParse Expense.extractedDataSchema Samples.blank_candidate
  = ParseSuccess Samples.blank_candidate
  ∧ field Samples.blank_candidate "bill_no" = JStr EmptyString
  ∧ field Samples.blank_candidate "amount" = JStr EmptyString.
Proof. vm_compute. repeat split. Qed.

(** C8, as the code has it. Every output the validator accepts has
    [bill_no] and [amount] present as strings, the very strings of the
    candidate; whether they are empty is not looked at. *)
Theorem accepted_fields_are_strings (candidate data : JsValue) :
  safeParse Expense.extractedDataSchema candidate = ParseSuccess data →
  ∃ b a, field candidate "bill_no" = JStr b ∧ field candidate "amount" = JStr a
    ∧ field data "bill_no" = JStr b ∧ field data "amount" = JStr a.
Proof.
  intros Hok.
  apply expense_accepted_inv in Hok as (b & a & p & r & (Hb & Ha & _) & _ & ->).
  exists b, a. repeat split; assumption || reflexivity.
Qed.

Lemma accepted_fields_are_strings_witness :
  ∃ b a,
    field Samples.sentinel_candidate "bill_no" = JStr b
    ∧ field Samples.sentinel_candidate "amount" = JStr a
    ∧ field Samples.sentinel_candidate "bill_no" = JStr b
    ∧ field Samples.sentinel_candidate "amount" = JStr a.
Proof.
  apply (accepted_fields_are_strings Samples.sentinel_candidate
           Samples.sentinel_candidate).
  vm_compute. reflexivity.
Defined.

(** ** The route handler *)

Module RouteFacts.
Import Route.

Section Handler.
Context (engine : Engine).
Context (extractedDataSchema : ZodObject) (systemPrompt userPrompt : string).

Local Abbreviation POST :=
  (Route.POST engine extractedDataSchema systemPrompt userPrompt).
Local Abbreviation try_block :=
  (Route.try_block engine extractedDataSchema systemPrompt userPrompt).
Local Abbreviation catch_block := (Route.catch_block engine).
Local Abbreviation call_for :=
  (Contract.call_for extractedDataSchema systemPrompt userPrompt).

Lemma truthy_string s : s ≠ EmptyString → truthy (JStr s) = true.
Proof. simpl. destruct (String.eqb_spec s EmptyString); [contradiction|done]. Qed.

(** A body without a usable [image] is answered at once. *)
Lemma try_block_no_image v provider :
  nullish v = false → truthy (field v "image") = false →
  try_block (BodyJson v) provider [] = (Normal no_image, []).
Proof.
  intros Hv Himg.
  unfold Route.try_block, mbind, eff_bind, lift, request_json, destructure, get.
  destruct v; try discriminate; simpl in *; try reflexivity.
  by rewrite Himg.
Qed.

(** A body with a non-empty string [image] for which the payload can be
    built reaches the provider once. *)
Lemma try_block_string_image fields img provider :
  fields !! "image" = Some (JStr img) → img ≠ EmptyString →
  payload_defined img (field (JObj fields) "mimeType") = true →
  try_block (BodyJson (JObj fields)) provider []
  = (match provider (call_for img (field (JObj fields) "mimeType")) with
     | Throws e => Throw e
     | Returns o => Normal (if truthy o then success o else no_data)
     end, [call_for img (field (JObj fields) "mimeType")]).
Proof.
  intros Himg Hne Hdef.
  unfold Route.try_block, mbind, eff_bind, completion_bind, lift, request_json,
    destructure, get, call_provider, call_includes, coerce, Contract.call_for,
    mime_of, or_else.
  unfold payload_defined in Hdef. simpl in Hdef |- *. rewrite Himg. simpl.
  destruct (String.eqb_spec img EmptyString) as [->|_]; [contradiction|]. simpl.
  destruct (includes "," img); simpl in Hdef |- *.
  - destruct (provider _) as [e|o]; [reflexivity|].
    destruct (truthy o); reflexivity.
  - destruct (truthy (default JUndefined (fields !! "mimeType")));
      rewrite ?Hdef; simpl;
      destruct (provider _) as [e|o]; try reflexivity;
      destruct (truthy o); reflexivity.
Qed.

(** On a value it can classify, the [catch] block computes [classify]. *)
Lemma catch_block_classifies e :
  classifiable e = true → catch_block e = Normal (classify e).
Proof.
  unfold classifiable, Route.catch_block, message_includes, get, opt_includes,
    call_includes, classify, message_has.
  destruct (nullish e) eqn:Hn; [discriminate|]. simpl.
  assert (get_e : match e with JUndefined | JNull => False | _ => True end)
    by (destruct e; done).
  destruct e; try done;
    destruct (field _ "message") as [| | | | s |items| ] eqn:Hm;
    try discriminate; intros _; simpl; try reflexivity.
  all: repeat (match goal with
               | |- context [if ?b then _ else _] => destruct b eqn:?
               | |- context [match (if ?b then _ else _) with _ => _ end] =>
                   destruct b eqn:?
               end; simpl; try reflexivity; try congruence).
Qed.

Lemma classifiable_ErrorObject message : classifiable (ErrorObject message) = true.
Proof. reflexivity. Qed.

(** On any other value the [catch] block itself throws. *)
Lemma catch_block_escapes e :
  classifiable e = false → ∃ reason, catch_block e = Throw reason.
Proof.
  unfold classifiable, Route.catch_block, message_includes, get, opt_includes,
    call_includes.
  destruct e; simpl; try discriminate; try by eauto.
  destruct (default JUndefined _); simpl; try discriminate; by eauto.
Qed.

Lemma classify_status e :
  status (classify e) = 401 ∨ status (classify e) = 429 ∨ status (classify e) = 500.
Proof.
  unfold classify.
  destruct (message_has "API_KEY" _); [by left|].
  destruct (_ || _); [right; by left|right; by right].
Qed.

(** What the [try] block can end with. *)
Lemma try_block_cases request provider :
  ∃ c calls, try_block request provider [] = (c, calls)
    ∧ (List.length calls ≤ 1)%nat
    ∧ match c with
      | Normal r => r = no_image ∨ r = no_data ∨ ∃ o, r = success o
      | Throw e => (∃ m, e = ErrorObject m) ∨ ∃ call, provider call = Throws e
      end.
Proof.
  unfold Route.try_block, mbind, eff_bind, completion_bind, lift, request_json,
    destructure, get, call_provider, call_includes, coerce, TypeError.
  destruct request as [m|v]; [by eauto 10|].
  destruct v as [| |b|n|s|items|fields]; simpl; try by eauto 10.
  destruct (fields !! "image") as [[| |b|n|s|items|fs]|]; simpl; try by eauto 10.
  all: repeat (unfold mret, eff_ret; simpl;
               match goal with
               | |- context [match ?x with Throws _ => _ | Returns _ => _ end] =>
                   destruct x eqn:?
               | |- context [if ?b then _ else _] => destruct b eqn:?
               end).
  all: unfold mret, eff_ret; simpl; eauto 10.
Qed.

Lemma POST_of_try request provider c calls :
  try_block request provider [] = (c, calls) →
  POST request provider
  = (match c with
     | Normal r => Resolves r
     | Throw e =>
         match catch_block e with
         | Normal r => Resolves r
         | Throw reason => Rejects reason
         end
     end, calls).
Proof. unfold Route.POST. intros ->. by destruct c. Qed.

Lemma POST_no_image v provider :
  nullish v = false → truthy (field v "image") = false →
  POST (BodyJson v) provider = (Resolves no_image, []).
Proof.
  intros Hv Himg.
  by rewrite (POST_of_try _ _ _ _ (try_block_no_image v provider Hv Himg)).
Qed.

(** The handler on a request that reaches the provider. *)
Lemma POST_string_image fields img provider :
  fields !! "image" = Some (JStr img) → img ≠ EmptyString →
  payload_defined img (field (JObj fields) "mimeType") = true →
  POST (BodyJson (JObj fields)) provider
  = (match provider (call_for img (field (JObj fields) "mimeType")) with
     | Throws e =>
         match catch_block e with
         | Normal r => Resolves r
         | Throw reason => Rejects reason
         end
     | Returns o => Resolves (if truthy o then success o else no_data)
     end, [call_for img (field (JObj fields) "mimeType")]).
Proof.
  intros Himg Hne Hdef.
  rewrite (POST_of_try _ _ _ _
             (try_block_string_image fields img provider Himg Hne Hdef)).
  by destruct (provider _).
Qed.

(** The handler on a string image for which no payload can be built. *)
Lemma POST_string_image_fault fields img provider :
  fields !! "image" = Some (JStr img) → img ≠ EmptyString →
  payload_defined img (field (JObj fields) "mimeType") = false →
  POST (BodyJson (JObj fields)) provider
  = (Resolves (classify (TypeError engine NotPrimitive)), []).
Proof.
  intros Himg Hne Hdef.
  unfold Route.POST, Route.try_block, mbind, eff_bind, completion_bind, lift,
    request_json, destructure, get, call_includes, coerce, or_else, TypeError.
  unfold payload_defined in Hdef. simpl in Hdef |- *. rewrite Himg. simpl.
  destruct (String.eqb_spec img EmptyString) as [->|_]; [contradiction|]. simpl.
  apply orb_false_iff in Hdef as [-> Hprint]. simpl.
  destruct (truthy (default JUndefined (fields !! "mimeType"))) eqn:Ht.
  - rewrite Hprint. simpl.
    by rewrite (catch_block_classifies _ (classifiable_ErrorObject _)).
  - by destruct (default JUndefined (fields !! "mimeType")).
Qed.



Lemma says_classifiable e msg : says e msg → classifiable e = true.
Proof.
  unfold says, classifiable. intros [-> Hm]. simpl.
  destruct msg as [s|]; [by rewrite Hm|].
  by destruct (field e "message").
Qed.

Lemma says_message_has e msg needle :
  says e msg → message_has needle (field e "message") = mentions needle msg.
Proof.
  unfold says, message_has. intros [_ Hm].
  destruct msg as [s|]; [by rewrite Hm|].
  by destruct (field e "message").
Qed.

(** C7, as the code has it. A body that parses to a value other than
    [null] and has no [image] field (an object without the key, but also
    a number, a string, a boolean or an array) is answered with status
    400 and the body [{ error: No image provided }], and the provider is
    not called. *)
Theorem missing_image_rejected (v : JsValue) (provider : Provider) :
  nullish v = false → field v "image" = JUndefined →
  POST (BodyJson v) provider
  = (Resolves (json (object [("error", JStr "No image provided")]) 400), []).
Proof.
  intros Hv Hnone. apply POST_no_image; [done|]. by rewrite Hnone.
Qed.

(** C10. A body whose [image] is the empty string is answered like one
    without [image]: status 400, [{ error: No image provided }], no
    provider call. *)
Theorem empty_image_rejected (fields : gmap string JsValue) (provider : Provider) :
  fields !! "image" = Some (JStr EmptyString) →
  POST (BodyJson (JObj fields)) provider
  = (Resolves (json (object [("error", JStr "No image provided")]) 400), [])
  ∧ POST (BodyJson (JObj fields)) provider
    = POST (BodyJson (JObj (delete "image" fields))) provider.
Proof.
  intros Hempty.
  assert (H1 : POST (BodyJson (JObj fields)) provider = (Resolves no_image, [])).
  { apply POST_no_image; [done|]. simpl. by rewrite Hempty. }
  split; [exact H1|]. rewrite H1. symmetry.
  apply POST_no_image; [done|]. simpl. by rewrite lookup_delete_eq.
Qed.

(** What the credential branch does: a provider error whose message
    contains [API_KEY] is answered with status 401, an error message
    and the instructions; nothing else in the message is looked at
    first. *)
Lemma api_key_error_is_401 (fields : gmap string JsValue) (img : string)
    (provider : Provider) (e : JsValue) (msg : string) :
  fields !! "image" = Some (JStr img) → img ≠ EmptyString →
  payload_defined img (field (JObj fields) "mimeType") = true →
  (∀ call, provider call = Throws e) →
  field e "message" = JStr msg → includes "API_KEY" msg = true →
  (POST (BodyJson (JObj fields)) provider).1
  = Resolves (json (object
      [("error", JStr "Invalid API key. Please check your GOOGLE_GEMINI_API_KEY in .env.local");
       ("instructions", JStr "Get a new API key from https://aistudio.google.com/apikey")])
      401).
Proof.
  intros Himg Hne Hdef Hthrows Hmsg Hkey.
  rewrite (POST_string_image _ _ _ Himg Hne Hdef), Hthrows. simpl.
  assert (Hs : says e (Some msg)).
  { split; [|done]. destruct e; simpl in *; done. }
  rewrite (catch_block_classifies _ (says_classifiable _ _ Hs)).
  unfold classify. rewrite (says_message_has _ _ _ Hs). simpl. by rewrite Hkey.
Qed.


(** C6, as the code has it. When the provider call returns without an
    object, the handler answers with status 500 and the body
    [{ error: Failed to extract data from image }]. *)
Theorem no_object_is_500 (fields : gmap string JsValue) (img : string)
    (provider : Provider) (o : JsValue) :
  fields !! "image" = Some (JStr img) → img ≠ EmptyString →
  payload_defined img (field (JObj fields) "mimeType") = true →
  (∀ call, provider call = Returns o) → truthy o = false →
  (POST (BodyJson (JObj fields)) provider).1
  = Resolves (json (object [("error", JStr "Failed to extract data from image")]) 500).
Proof.
  intros Himg Hne Hdef Hret Hfalsy.
  by rewrite (POST_string_image _ _ _ Himg Hne Hdef), Hret, Hfalsy.
Qed.


(** C3, as the code has it. Whatever the request, if every value the
    provider call throws can be classified (it is not [null] or
    [undefined] and its message is absent, [null], a string or an
    array), the handler resolves to one response, with one of the
    statuses of §6, after at most one provider call. *)
Theorem handler_resolves (request : NextRequest) (provider : Provider) :
  (∀ call e, provider call = Throws e → classifiable e = true) →
  ∃ r, (POST request provider).1 = Resolves r
    ∧ status r ∈ [200; 400; 401; 429; 500]
    ∧ (List.length (POST request provider).2 ≤ 1)%nat.
Proof.
  intros Hprov.
  destruct (try_block_cases request provider) as (c & calls & Htry & Hlen & Hc).
  rewrite (POST_of_try _ _ _ _ Htry). simpl.
  destruct c as [r|e].
  - exists r. repeat split; [|done].
    destruct Hc as [-> | [-> | [o ->]]]; simpl; repeat constructor.
  - assert (Hcl : classifiable e = true).
    { destruct Hc as [[m ->] | [call Hcall]]; [apply classifiable_ErrorObject|eauto]. }
    rewrite (catch_block_classifies _ Hcl).
    exists (classify e). repeat split; [|done].
    destruct (classify_status e) as [-> | [-> | ->]]; repeat constructor.
Qed.

End Handler.

(** *** The theorems at work on concrete requests *)

Lemma missing_image_rejected_witness :
  Expense.POST node (BodyJson (object [("mimeType", JStr "image/png")]))
    (λ _, Returns JNull)
  = (Resolves (json (object [("error", JStr "No image provided")]) 400), []).
Proof.
  apply (missing_image_rejected node Expense.extractedDataSchema
           Expense.systemPrompt Expense.userPrompt
           (object [("mimeType", JStr "image/png")])).
  - reflexivity.
  - vm_compute. reflexivity.
Defined.

(** A [null] body has no [image] field either, and is answered with
    status 500 as a failure of the provider. *)
Lemma null_body_is_500 :
  field JNull "image" = JUndefined
  ∧ Expense.POST node (BodyJson JNull) (λ _, Returns JNull)
    = (Resolves (json (object
         [("error", JStr "Failed to process image with Gemini API");
          ("details", JStr "Cannot destructure property 'image' of '(intermediate value)' as it is null.");
          ("suggestion", JStr "Please try again or use Basic OCR mode")])
         500), []).
Proof. split; [reflexivity|vm_compute; reflexivity]. Qed.

Lemma empty_image_rejected_witness :
  Expense.POST node
    (BodyJson (object [("image", JStr EmptyString); ("mimeType", JStr "image/png")]))
    (λ _, Returns JNull)
  = (Resolves (json (object [("error", JStr "No image provided")]) 400), [])
  ∧ Expense.POST node
      (BodyJson (object [("image", JStr EmptyString); ("mimeType", JStr "image/png")]))
      (λ _, Returns JNull)
    = Expense.POST node
        (BodyJson (JObj (delete "image"
           (list_to_map [("image", JStr EmptyString); ("mimeType", JStr "image/png")]))))
        (λ _, Returns JNull).
Proof.
  apply (empty_image_rejected node Expense.extractedDataSchema
           Expense.systemPrompt Expense.userPrompt
           (list_to_map [("image", JStr EmptyString); ("mimeType", JStr "image/png")])).
  vm_compute. reflexivity.
Defined.

(** The credential branch at work, on the message the provider library
    gives when no key is configured: it names the environment
    variable. *)
Example missing_key_is_401 :
  (Expense.POST node (BodyJson (object [("image", JStr "aGVsbG8=")]))
     (λ _, Throws (ErrorObject
        "Google Generative AI API key is missing. Pass it using the 'apiKey' parameter or the GOOGLE_GENERATIVE_AI_API_KEY environment variable."))).1
  = Resolves (json (object
      [("error", JStr "Invalid API key. Please check your GOOGLE_GEMINI_API_KEY in .env.local");
       ("instructions", JStr "Get a new API key from https://aistudio.google.com/apikey")])
      401).
Proof.
  apply (api_key_error_is_401 node Expense.extractedDataSchema
           Expense.systemPrompt Expense.userPrompt
           (list_to_map [("image", JStr "aGVsbG8=")]) "aGVsbG8="
           (λ _, Throws (ErrorObject
              "Google Generative AI API key is missing. Pass it using the 'apiKey' parameter or the GOOGLE_GENERATIVE_AI_API_KEY environment variable."))
           (ErrorObject
              "Google Generative AI API key is missing. Pass it using the 'apiKey' parameter or the GOOGLE_GENERATIVE_AI_API_KEY environment variable.")
           "Google Generative AI API key is missing. Pass it using the 'apiKey' parameter or the GOOGLE_GENERATIVE_AI_API_KEY environment variable.").
  - vm_compute. reflexivity.
  - discriminate.
  - vm_compute. reflexivity.
  - reflexivity.
  - vm_compute. reflexivity.
  - vm_compute. reflexivity.
Qed.

(** C2. The code at the failing input: a provider error that reports
    an invalid API key in the provider's own words mentions [API key]
    but not [API_KEY]; the handler answers it with status 500 as a
    generic failure, without instructions, and not with the status 401
    of its credential branch. *)
Lemma api_key_phrase_is_500 :
  includes "API key" "API key not valid. Please pass a valid API key." = true
  ∧ (Expense.POST node (BodyJson (object [("image", JStr "aGVsbG8=")]))
       (λ _, Throws (ErrorObject "API key not valid. Please pass a valid API key."))).1
    = Resolves (json (object
        [("error", JStr "Failed to process image with Gemini API");
         ("details", JStr "API key not valid. Please pass a valid API key.");
         ("suggestion", JStr "Please try again or use Basic OCR mode")])
        500).
Proof. vm_compute. split; reflexivity. Qed.



(** A provider call that returns no object is answered with the message
    of the malformed-output row, not with [no data returned]. *)
Lemma no_object_message :
  (Expense.POST node (BodyJson (object [("image", JStr "aGVsbG8=")]))
     (λ _, Returns JUndefined)).1
  = Resolves (json (object [("error", JStr "Failed to extract data from image")]) 500)
  ∧ JStr "Failed to extract data from image" ≠ JStr "no data returned".
Proof. split; [vm_compute; reflexivity|discriminate]. Qed.

Lemma no_object_is_500_witness :
  (Expense.POST node (BodyJson (object [("image", JStr "aGVsbG8=")]))
     (λ _, Returns JNull)).1
  = Resolves (json (object [("error", JStr "Failed to extract data from image")]) 500).
Proof.
  apply (no_object_is_500 node Expense.extractedDataSchema
           Expense.systemPrompt Expense.userPrompt
           (list_to_map [("image", JStr "aGVsbG8=")]) "aGVsbG8="
           (λ _, Returns JNull) JNull).
  - vm_compute. reflexivity.
  - discriminate.
  - vm_compute. reflexivity.
  - reflexivity.
  - reflexivity.
Defined.


(** An empty [mimeType] is replaced by the default as an absent one is. *)
Example empty_mime_type_defaults :
  image <$> (Expense.POST node
               (BodyJson (object [("image", JStr "aGVsbG8="); ("mimeType", JStr EmptyString)]))
               (λ _, Returns JNull)).2
  = [JStr "data:image/jpeg;base64,aGVsbG8="].
Proof. vm_compute. reflexivity. Qed.

(** A [mimeType] with a [toString] key of its own stops the handler
    before the provider. *)
Example unprintable_mime_type_faults :
  Expense.POST node
    (BodyJson (object [("image", JStr "aGVsbG8=");
                       ("mimeType", object [("toString", JNum "1")])]))
    (λ _, Returns JNull)
  = (Resolves (json (object
       [("error", JStr "Failed to process image with Gemini API");
        ("details", JStr "Cannot convert object to primitive value");
        ("suggestion", JStr "Please try again or use Basic OCR mode")])
       500), []).
Proof. vm_compute. reflexivity. Qed.


(** A provider call that throws [null] makes the handler itself fail:
    the [catch] block reads [message] off the thrown value. *)
Lemma thrown_null_escapes :
  (Expense.POST node (BodyJson (object [("image", JStr "aGVsbG8=")]))
     (λ _, Throws JNull)).1
  = Rejects (ErrorObject "Cannot read properties of null (reading 'message')").
Proof. vm_compute. reflexivity. Qed.

Lemma handler_resolves_witness :
  ∃ r, (Expense.POST node (BodyInvalid "Unexpected end of JSON input")
          (λ _, Throws (ErrorObject "fetch failed"))).1 = Resolves r
    ∧ status r ∈ [200; 400; 401; 429; 500]
    ∧ (List.length (Expense.POST node (BodyInvalid "Unexpected end of JSON input")
                      (λ _, Throws (ErrorObject "fetch failed"))).2 ≤ 1)%nat.
Proof.
  apply (handler_resolves node Expense.extractedDataSchema
           Expense.systemPrompt Expense.userPrompt).
  intros call e [= <-]. vm_compute. reflexivity.
Defined.

(** *** The validator behind the handler *)

(** With the provider library checking the model's answer against the
    schema of the call, a candidate that does not conform never comes back
    as a success: the handler answers with one of the failure statuses. *)
Lemma malformed_output_is_failure engine describe_invalid fields img candidate :
  fields !! "image" = Some (JStr img) → img ≠ EmptyString →
  payload_defined img (field (JObj fields) "mimeType") = true →
  ¬ conforms candidate →
  ∃ r, (Expense.POST engine (BodyJson (JObj fields))
          (Sdk.generateObject describe_invalid (Sdk.ReplyJson candidate))).1
       = Resolves r
    ∧ status r ∈ [401; 429; 500].
Proof.
  intros Himg Hne Hdef Hbad. unfold Expense.POST.
  rewrite (POST_string_image _ _ _ _ _ _ _ Himg Hne Hdef).
  unfold Sdk.generateObject. simpl schema.
  destruct (safeParse Expense.extractedDataSchema candidate) as [data|issues] eqn:E.
  - destruct Hbad. apply expense_accepted_inv in E as (b & a & p & r & ? & ? & _).
    by exists b, a, p, r.
  - simpl. rewrite (catch_block_classifies _ _ (classifiable_ErrorObject _)).
    eexists. split; [reflexivity|].
    destruct (classify_status (ErrorObject (describe_invalid candidate issues)))
      as [-> | [-> | ->]]; repeat constructor.
Qed.

(** A conforming candidate comes back as the success response, its four
    strings unchanged. *)
Lemma conforming_output_is_success engine describe_invalid fields img candidate b a p r :
  fields !! "image" = Some (JStr img) → img ≠ EmptyString →
  payload_defined img (field (JObj fields) "mimeType") = true →
  has_fields candidate b a p r → is_purpose_literal p →
  (Expense.POST engine (BodyJson (JObj fields))
     (Sdk.generateObject describe_invalid (Sdk.ReplyJson candidate))).1
  = Resolves (json (object
      [("success", JBool true);
       ("data", object [("bill_no", JStr b); ("amount", JStr a);
                        ("purpose", JStr p); ("raw_text", JStr r)])]) 200).
Proof.
  intros Himg Hne Hdef Hf Hlit. unfold Expense.POST.
  rewrite (POST_string_image _ _ _ _ _ _ _ Himg Hne Hdef).
  unfold Sdk.generateObject. simpl schema.
  by rewrite (expense_accepts _ _ _ _ _ Hf Hlit).
Qed.

(** The response the client sample receives is what the handler sends
    for the sample request when the model answers with the taxi data. *)
Example taxi_round_trip :
  (Expense.POST node (BodyJson Samples.taxi_request)
     (Sdk.generateObject (λ _ _, "No object generated: response did not match schema.")
        (Sdk.ReplyJson Samples.taxi_data))).1
  = Resolves (json Samples.taxi_response 200).
Proof. vm_compute. reflexivity. Qed.

End RouteFacts.

(** ** The client component *)

Module ImageOCRFacts.
Import ImageOCR.

Section Component.
Context (engine : Engine).

Local Abbreviation step := (ImageOCR.step engine).
Local Abbreviation after_fetch := (ImageOCR.after_fetch engine).

(** The setters touch one cell each. *)
Lemma finally_cells s :
  image (finally s) = image s ∧ text (finally s) = text s
  ∧ structuredData (finally s) = structuredData s ∧ error (finally s) = error s
  ∧ isProcessing (finally s) = false.
Proof. by destruct s. Qed.


(** A failure response with a string [error] is written into [error],
    whatever the cells hold: with the instructions behind it and the
    setup panel switched on when it names an API key, alone otherwise. *)
Lemma after_fetch_failure s result msg :
  field result "error" = JStr msg →
  printable (field result "instructions") = true →
  error (after_fetch (Responded false result) s)
  = JStr (if includes "API key" msg
          then msg +:+ " " +:+ ToString (or_else (field result "instructions")
                                                 (JStr EmptyString))
          else if String.eqb msg EmptyString then "Failed to extract text" else msg)
  ∧ apiKeyMissing (after_fetch (Responded false result) s)
    = (includes "API key" msg || apiKeyMissing s)
  ∧ image (after_fetch (Responded false result) s) = image s.
Proof.
  intros He Hp.
  unfold ImageOCR.after_fetch, get, opt_includes, call_includes, coerce, or_else,
    mbind, completion_bind.
  destruct result; try discriminate. cbn [nullish]. rewrite He.
  cbn [nullish printable].
  destruct (includes "API key" msg) eqn:Hk.
  - assert (Hprint : printable (if truthy (field (JObj fields) "instructions")
                                then field (JObj fields) "instructions"
                                else JStr EmptyString) = true)
      by (by destruct (truthy _)).
    rewrite Hprint. by destruct s.
  - simpl. by destruct (String.eqb msg EmptyString).
Qed.



End Component.



End ImageOCRFacts.

(** * Further properties *)

(** ** The session of the client component *)

Module SessionFacts.
Import ImageOCR View Conditions.

Section Component.
Context (engine : Engine).

Local Abbreviation step := (ImageOCR.step engine).
Local Abbreviation run := (ImageOCR.run engine).
Local Abbreviation catch := (ImageOCR.catch engine).
Local Abbreviation after_fetch := (ImageOCR.after_fetch engine).
Local Abbreviation after_read := (ImageOCR.after_read engine).

Lemma catch_cells err s :
  isProcessing (catch err s) = false ∧ status (catch err s) = EmptyString
  ∧ text (catch err s) = text s ∧ structuredData (catch err s) = structuredData s
  ∧ image (catch err s) = image s ∧ apiKeyMissing (catch err s) = apiKeyMissing s.
Proof.
  unfold ImageOCR.catch.
  destruct (get engine err "message") as [message|]; [|done].
  by destruct (coerce engine _).
Qed.

Lemma append_not_empty a c b d :
  String.eqb (a +:+ String c b +:+ d) EmptyString = false.
Proof. by destruct a. Qed.

(** The branch for an error that names an API key: the message is
    built and shown, or building it throws. *)
Lemma api_key_branch err instructions s :
  (∃ v, truthy v = true
     ∧ match
         shown ← coerce engine err;
         text ← coerce engine (or_else instructions (JStr EmptyString));
         Normal (shown +:+ " " +:+ text)
       with
       | Normal message => finally (setError (JStr message) s)
       | Throw e => catch e s
       end = finally (setError v s))
  ∨ (∃ e, match
            shown ← coerce engine err;
            text ← coerce engine (or_else instructions (JStr EmptyString));
            Normal (shown +:+ " " +:+ text)
          with
          | Normal message => finally (setError (JStr message) s)
          | Throw e => catch e s
          end = catch e s).
Proof.
  unfold coerce, mbind, completion_bind.
  destruct (printable err); [|by eauto].
  destruct (printable (or_else instructions (JStr EmptyString))); [|by eauto].
  left. eexists. split; [|reflexivity]. simpl. by rewrite append_not_empty.
Qed.

(** What [after_fetch] leaves in the cells, path by path. *)
Lemma after_fetch_paths o s :
  (∃ err, after_fetch o s = catch err s)
  ∨ (∃ err, after_fetch o s = catch err (setStructuredData JUndefined s))
  ∨ (∃ err, after_fetch o s = catch err (setStructuredData JNull s))
  ∨ (∃ v, truthy v = true
       ∧ after_fetch o s = finally (setError v s))
  ∨ (∃ v, truthy v = true
       ∧ after_fetch o s = finally (setError v (setApiKeyMissing true s)))
  ∨ (∃ data, nullish data = false
       ∧ after_fetch o s
         = finally (setText (or_else (field data "raw_text") (JStr EmptyString))
                      (setStructuredData data s)))
  ∨ (∃ err, after_fetch o s = catch err (setApiKeyMissing true s)).
Proof.
  destruct o as [err|[] result]; [by eauto| |].
  - (* response.ok *)
    unfold ImageOCR.after_fetch, get.
    destruct (nullish result) eqn:Hr.
    { destruct result; try discriminate; simpl; by eauto. }
    replace (match result with JUndefined | JNull => _ | _ => Normal (field result "data") end)
      with (Normal (A:=JsValue) (field result "data")) by (by destruct result).
    destruct (field result "data") eqn:Hd.
    1: right; left; eexists; reflexivity.
    1: right; right; left; eexists; reflexivity.
    all: do 5 right; left;
      match goal with |- context [setStructuredData ?d _] => exists d end;
      split; reflexivity.
  - (* !response.ok *)
    unfold ImageOCR.after_fetch, get, opt_includes, call_includes.
    destruct (nullish result) eqn:Hr.
    { destruct result; try discriminate; simpl; by eauto. }
    replace (match result with JUndefined | JNull => _ | _ => Normal (field result "error") end)
      with (Normal (A:=JsValue) (field result "error")) by (by destruct result).
    destruct (field result "error") as [| |b|n|e|items|fs] eqn:He; cbn [nullish];
      try by eauto 10.
    + right; right; right; left. eexists. split; [|reflexivity]. reflexivity.
    + right; right; right; left. eexists. split; [|reflexivity]. reflexivity.
    + destruct (includes "API key" e) eqn:Hk.
      * destruct (api_key_branch (JStr e) (field result "instructions")
                    (setApiKeyMissing true s)) as [(v & Hv & ->)|[err ->]];
          by eauto 10.
      * right; right; right; left. unfold or_else.
        destruct (truthy (JStr e)) eqn:Ht; eexists; (split; [|reflexivity]); done.
    + destruct (existsb _ items) eqn:Hk.
      * destruct (api_key_branch (JArr items) (field result "instructions")
                    (setApiKeyMissing true s)) as [(v & Hv & ->)|[err ->]];
          by eauto 10.
      * right; right; right; left. eexists. split; [|reflexivity]. reflexivity.
Qed.

(** The [finally] block runs on every path. *)
Lemma after_fetch_clears o s :
  isProcessing (after_fetch o s) = false ∧ status (after_fetch o s) = EmptyString.
Proof.
  destruct (after_fetch_paths o s)
    as [[e ->]|[[e ->]|[[e ->]|[(v & _ & ->)|[(v & _ & ->)|[(d & _ & ->)|[e ->]]]]]]].
  1: destruct (catch_cells e s) as (? & ? & _); done.
  1: destruct (catch_cells e (setStructuredData JUndefined s)) as (? & ? & _); done.
  1: destruct (catch_cells e (setStructuredData JNull s)) as (? & ? & _); done.
  4: destruct (catch_cells e (setApiKeyMissing true s)) as (? & ? & _); done.
  all: split; reflexivity.
Qed.

(** X1. Whatever comes back from the request, also a body the
    component cannot read, the call ends with the progress panel closed:
    [isProcessing] is false and [status] is empty. *)
Theorem completion_closes_progress (o : FetchOutcome) (s : State) :
  isProcessing (after_fetch o s) = false
  ∧ status (after_fetch o s) = EmptyString
  ∧ progress_panel (after_fetch o s) = None.
Proof.
  destruct (after_fetch_clears o s) as [Hp Hs]. repeat split; [done..|].
  unfold progress_panel. by rewrite Hp.
Qed.

(** The [catch] block on a [TypeError] of the engine. *)
Lemma catch_type_error f s :
  truthy (error (catch (TypeError engine f) s)) = true.
Proof.
  unfold ImageOCR.catch, TypeError, ErrorObject, get.
  change (field (object [("message", JStr (type_error_message engine f))]) "message")
    with (JStr (type_error_message engine f)).
  cbn [nullish object]. unfold coerce, or_else.
  assert (Hp : printable (if truthy (JStr (type_error_message engine f))
                          then JStr (type_error_message engine f)
                          else JStr EmptyString) = true)
    by (by destruct (truthy _)).
  by rewrite Hp.
Qed.

(** X2. A response that is not [ok] always leaves an error message on
    the page, whatever its body is. *)
Theorem failed_response_shows_error (result : JsValue) (s : State) :
  truthy (error (after_fetch (Responded false result) s)) = true
  ∧ ∃ message flag,
      error_panel (after_fetch (Responded false result) s) = Some (message, flag).
Proof.
  assert (H : truthy (error (after_fetch (Responded false result) s)) = true).
  { unfold ImageOCR.after_fetch, get, opt_includes, call_includes.
    destruct (nullish result) eqn:Hr.
    { destruct result; try discriminate; apply catch_type_error. }
    replace (match result with JUndefined | JNull => _ | _ => Normal (field result "error") end)
      with (Normal (A:=JsValue) (field result "error")) by (by destruct result).
    destruct (field result "error") as [| |b|n|e|items|fs'] eqn:He; cbn [nullish];
      try apply catch_type_error; try done.
    - destruct (includes "API key" e).
      + destruct (api_key_branch (JStr e) (field result "instructions")
                    (setApiKeyMissing true s)) as [(v & Hv & ->)|[err Herr]];
          [done|].
        revert Herr. unfold coerce, mbind, completion_bind. cbn [printable].
        destruct (printable (or_else _ _));
          [|intros _; apply catch_type_error].
        simpl. by rewrite append_not_empty.
      + unfold or_else. destruct (truthy (JStr e)) eqn:Ht; simpl in *; by rewrite ?Ht.
    - destruct (existsb _ items).
      + unfold coerce, mbind, completion_bind.
        destruct (printable (JArr items)); [|apply catch_type_error].
        destruct (printable (or_else _ _)); [|apply catch_type_error].
        simpl. by rewrite append_not_empty.
      + done. }
  split; [done|]. unfold error_panel. rewrite H. eauto.
Qed.

(** The cells after a completion that started from a blank page. *)
Lemma after_fetch_keeps_text_with_result o s :
  text s = JStr EmptyString →
  truthy (text (after_fetch o s)) = true →
  truthy (structuredData (after_fetch o s)) = true.
Proof.
  intros Hblank.
  destruct (after_fetch_paths o s)
    as [[e ->]|[[e ->]|[[e ->]|[(v & _ & ->)|[(v & _ & ->)|[(d & Hd & ->)|[e ->]]]]]]].
  1-3: destruct (catch_cells e s) as (_ & _ & Ht & _);
       try destruct (catch_cells e (setStructuredData JUndefined s)) as (_ & _ & Ht1 & _);
       try destruct (catch_cells e (setStructuredData JNull s)) as (_ & _ & Ht2 & _);
       rewrite ?Ht, ?Ht1, ?Ht2; simpl; rewrite ?Hblank; done.
  1-2: simpl; by rewrite Hblank.
  - simpl. unfold or_else.
    destruct d; simpl; try done.
  - destruct (catch_cells e (setApiKeyMissing true s)) as (_ & _ & Ht & _).
    rewrite Ht. simpl. by rewrite Hblank.
Qed.

Lemma at_rest_or_in_flight_step p ev :
  at_rest p ∨ in_flight p → at_rest (step p ev) ∨ in_flight (step p ev).
Proof.
  intros Hp. destruct ev as [f| | |id o|id o]; simpl.
  - (* processFile *)
    unfold processFile.
    destruct Hp as [(He & Hi & Ht)|(id & a & He & Hi & Ht & Hd)];
      destruct (negb _); [left|left|right|right]; simpl;
      try (repeat split; done); try (exists id, a; repeat split; done).
  - (* performAIExtraction *)
    destruct Hp as [(He & Hi & Ht)|(id & a & He & Hi & Ht & Hd)].
    + unfold extract_button, start.
      destruct (image (session p)) as [captured|] eqn:Himg; simpl;
        [|left; by repeat split].
      destruct (negb (truthy _) && negb _); [|left; by repeat split].
      right. exists (next p), {| file := captured; stage := Reading |}.
      cbn [pending session]. rewrite He, insert_empty. by repeat split.
    + unfold extract_button. rewrite Hi, andb_false_r.
      right. by exists id, a.
  - (* reset *)
    destruct Hp as [(He & Hi & Ht)|(id & a & He & Hi & Ht & Hd)];
      [left|right]; simpl; [by repeat split|by exists id, a].
  - (* the reader is done *)
    destruct Hp as [(He & Hi & Ht)|(id' & a & He & Hi & Ht & Hd)].
    + rewrite He, lookup_empty. left. by repeat split.
    + rewrite He. destruct (decide (id' = id)) as [->|Hne].
      * rewrite lookup_singleton_eq. destruct a as [captured [|request]].
        -- destruct o as [base64Image|event]; cbn [after_read ImageOCR.after_read].
           ++ right. exists id, {| file := captured;
                                    stage := Fetching (object [("image", base64Image);
                                                               ("mimeType", JStr (type captured))]) |}.
              cbn [pending session]. rewrite insert_singleton_eq.
              by repeat split.
           ++ left. unfold at_rest. cbn [pending session].
              rewrite delete_singleton_eq.
              destruct (catch_cells event (session p)) as (-> & _ & -> & -> & _).
              rewrite Ht. by repeat split.
        -- right. by exists id, {| file := captured; stage := Fetching request |}.
      * rewrite lookup_singleton_ne by done. right. by exists id', a.
  - (* the response is there *)
    destruct Hp as [(He & Hi & Ht)|(id' & a & He & Hi & Ht & Hd)].
    + rewrite He, lookup_empty. left. by repeat split.
    + rewrite He. destruct (decide (id' = id)) as [->|Hne].
      * rewrite lookup_singleton_eq. destruct a as [captured [|request]].
        -- right. by exists id, {| file := captured; stage := Reading |}.
        -- left. unfold at_rest. cbn [pending session].
           rewrite delete_singleton_eq.
           repeat split; [apply after_fetch_clears|].
           by apply after_fetch_keeps_text_with_result.
      * rewrite lookup_singleton_ne by done. right. by exists id', a.
Qed.

Lemma at_rest_or_in_flight_run events p :
  at_rest p ∨ in_flight p → at_rest (run events p) ∨ in_flight (run events p).
Proof.
  revert p. induction events as [|ev events IH]; intros p Hp; [done|].
  simpl. apply IH. by apply at_rest_or_in_flight_step.
Qed.

Lemma mount_at_rest : at_rest mount.
Proof. by repeat split. Qed.

(** X3. From the mounted page, whatever the user and the network do,
    at most one extraction call is suspended at any time, and the page is
    processing exactly while one is. *)
Theorem single_flight (events : list Event) :
  (size (pending (run events mount)) ≤ 1)%nat
  ∧ (isProcessing (session (run events mount)) = true
     ↔ pending (run events mount) ≠ ∅).
Proof.
  destruct (at_rest_or_in_flight_run events mount (or_introl mount_at_rest))
    as [(He & Hi & _)|(id & a & He & Hi & _)]; rewrite He, Hi.
  - rewrite map_size_empty. split; [lia|]. split; [discriminate|done].
  - rewrite map_size_singleton. split; [lia|]. split; [|done].
    intros _ Hempty. apply (f_equal (lookup id)) in Hempty.
    by rewrite lookup_singleton_eq, lookup_empty in Hempty.
Qed.

(** X4. While the page is processing it shows neither text nor result,
    and the extract button is hidden. *)
Theorem processing_page_is_blank (events : list Event) :
  isProcessing (session (run events mount)) = true →
  text (session (run events mount)) = JStr EmptyString
  ∧ structuredData (session (run events mount)) = JNull
  ∧ results (session (run events mount)) = EmptyPanel false false
  ∧ extract_button (session (run events mount)) = false.
Proof.
  intros Hproc.
  destruct (at_rest_or_in_flight_run events mount (or_introl mount_at_rest))
    as [(_ & Hi & _)|(id & a & _ & Hi & Ht & Hd)]; [congruence|].
  unfold results, extract_button. rewrite Ht, Hd, Hi. repeat split.
  by rewrite andb_false_r.
Qed.

(** X5. The copy and download buttons are never enabled: on every page
    reached from the mounted one, either the expense cards are shown
    (and the buttons are not rendered) or the empty panel is shown with
    the buttons disabled and without footer, and [copyToClipboard] and
    [downloadText] would do nothing. *)
Theorem copy_and_download_never_enabled (events : list Event) :
  truthy (structuredData (session (run events mount))) = true
  ∨ (results (session (run events mount)) = EmptyPanel false false
     ∧ copyToClipboard (session (run events mount)) = None
     ∧ downloadText (session (run events mount)) = None).
Proof.
  destruct (at_rest_or_in_flight_run events mount (or_introl mount_at_rest))
    as [(_ & _ & Ht)|(id & a & _ & _ & Ht & Hd)].
  - destruct (truthy (structuredData (session (run events mount)))) eqn:Hsd;
      [by left|right].
    destruct (truthy (text (session (run events mount)))) eqn:Htx;
      [specialize (Ht eq_refl); congruence|].
    unfold results, copyToClipboard, downloadText. by rewrite Hsd, Htx.
  - right. unfold results, copyToClipboard, downloadText. by rewrite Ht, Hd.
Qed.

(** X6. Selecting an image file brings up the extract button exactly
    when no extraction call is suspended. *)
Theorem selection_offers_extraction (events : list Event) (f : File) :
  String.prefix "image/" (type f) = true →
  extract_button (session (step (run events mount) (SelectFile f))) = true
  ↔ pending (run events mount) = ∅.
Proof.
  intros Himg. simpl. unfold processFile, extract_button. rewrite Himg. simpl.
  destruct (at_rest_or_in_flight_run events mount (or_introl mount_at_rest))
    as [(He & Hi & _)|(id & a & He & Hi & _)]; rewrite He, Hi; simpl.
  - done.
  - rewrite ?andb_false_r. split; [discriminate|].
    intros Hempty. apply (f_equal (lookup id)) in Hempty.
    by rewrite lookup_singleton_eq, lookup_empty in Hempty.
Qed.

End Component.

Lemma processing_page_is_blank_witness :
  text (session Samples.second_selected) = JStr EmptyString
  ∧ structuredData (session Samples.second_selected) = JNull
  ∧ results (session Samples.second_selected) = EmptyPanel false false
  ∧ extract_button (session Samples.second_selected) = false.
Proof.
  apply (processing_page_is_blank node
           [SelectFile Samples.taxi; ClickExtract;
            ReaderDone 0 (Loaded (JStr "data:image/png;base64,AAAA"));
            SelectFile Samples.lunch]).
  vm_compute. reflexivity.
Defined.

Lemma selection_offers_extraction_witness :
  extract_button (session (ImageOCR.step node (ImageOCR.run node [] mount)
                             (SelectFile Samples.taxi))) = true
  ↔ pending (ImageOCR.run node [] mount) = ∅.
Proof.
  apply (selection_offers_extraction node [] Samples.taxi).
  vm_compute. reflexivity.
Defined.

End SessionFacts.

(** ** More on the route handler *)

Module HandlerFacts.
Import Route Conditions.

Section Handler.
Context (engine : Engine).
Context (extractedDataSchema : ZodObject) (systemPrompt userPrompt : string).

Local Abbreviation POST :=
  (Route.POST engine extractedDataSchema systemPrompt userPrompt).
Local Abbreviation try_block :=
  (Route.try_block engine extractedDataSchema systemPrompt userPrompt).
Local Abbreviation POST_string_image :=
  (RouteFacts.POST_string_image engine extractedDataSchema systemPrompt userPrompt).
Local Abbreviation POST_of_try :=
  (RouteFacts.POST_of_try engine extractedDataSchema systemPrompt userPrompt).

Local Ltac outcome :=
  do 2 eexists; split; [reflexivity|]; split; [reflexivity|]; eauto 8.

Lemma printable_or_else m d : printable (or_else m (JStr d)) = printable m.
Proof. unfold or_else. destruct (truthy m) eqn:H; [done|]. by destruct m. Qed.

(** Every way the [try] block can end, with the number of provider calls
    made. *)
Lemma try_block_outcomes request provider :
  ∃ c calls, try_block request provider [] = (c, calls)
    ∧ List.length calls = (if reaches_provider request then 1 else 0)%nat
    ∧ match c with
      | Normal r =>
          (r = no_image ∧ reaches_provider request = false)
          ∨ r = no_data ∨ ∃ o, truthy o = true ∧ r = success o
      | Throw e =>
          request_fault engine request = Some e
          ∨ (reaches_provider request = true ∧ ∃ call, provider call = Throws e)
      end.
Proof.
  unfold Route.try_block, mbind, eff_bind, lift, request_json, destructure, get,
    call_provider, call_includes, reaches_provider, request_fault, coerce,
    completion_bind.
  destruct request as [m|v]; [by eauto 10|].
  destruct v as [| |b|n|s|items|fields]; simpl; try by eauto 10.
  rewrite !printable_or_else.
  destruct (fields !! "image") as [[| |[]|n|s|items|fs]|]; cbn [default];
    try by (simpl; eauto 10).
  - simpl. destruct (String.eqb n "0" || String.eqb n "NaN"); simpl; by eauto 10.
  - cbn -[includes String.eqb].
    destruct (String.eqb s EmptyString); cbn -[includes]; [by outcome|].
    destruct (includes "," s); cbn -[includes].
    + destruct (provider _) as [e|o] eqn:Hp; cbn; [by outcome|].
      destruct (truthy o) eqn:Ho; cbn; by outcome.
    + destruct (printable (default JUndefined (fields !! "mimeType"))); cbn;
        [|by outcome].
      destruct (provider _) as [e|o] eqn:Hp; cbn; [by outcome|].
      destruct (truthy o) eqn:Ho; cbn; by outcome.
  - cbn -[existsb printable ToString].
    destruct (existsb (is_string ",") items); cbn -[printable ToString].
    + destruct (provider _) as [e|o] eqn:Hp; cbn; [by outcome|].
      destruct (truthy o) eqn:Ho; cbn; by outcome.
    + destruct (printable (default JUndefined (fields !! "mimeType")));
        cbn -[ToString]; [|by outcome].
      destruct ((fix all (l : list JsValue) : bool :=
                   match l with
                   | [] => true
                   | x :: rest => printable x && all rest
                   end) items); cbn -[ToString]; [|by outcome].
      destruct (provider _) as [e|o] eqn:Hp; cbn -[ToString]; [by outcome|].
      destruct (truthy o) eqn:Ho; cbn -[ToString]; by outcome.
Qed.

(** A request with a fault ends the [try] block with it, before any
    provider call. *)
Lemma try_block_fault request provider e :
  request_fault engine request = Some e →
  try_block request provider [] = (Throw e, []).
Proof.
  unfold Route.try_block, mbind, eff_bind, lift, request_json, destructure, get,
    call_provider, call_includes, request_fault, coerce, completion_bind.
  destruct request as [m|v]; [by intros [= <-]|].
  destruct v as [| |b|n|s|items|fields]; simpl; try by intros [= <-].
  rewrite !printable_or_else.
  destruct (fields !! "image") as [[| |[]|n|s|items|fs]|]; cbn [default];
    try by (simpl; intros [= <-]).
  - simpl. destruct (String.eqb n "0" || String.eqb n "NaN"); simpl;
      by intros [= <-].
  - cbn -[includes String.eqb].
    destruct (String.eqb s EmptyString); cbn -[includes]; [done|].
    destruct (includes "," s); cbn -[includes]; [done|].
    destruct (printable (default JUndefined (fields !! "mimeType"))); cbn;
      [done|by intros [= <-]].
  - cbn -[existsb ToString].
    destruct (existsb (is_string ",") items); cbn -[ToString]; [done|].
    destruct (printable (default JUndefined (fields !! "mimeType")));
      cbn -[ToString]; [|by intros [= <-]].
    destruct ((fix all (l : list JsValue) : bool :=
                 match l with
                 | [] => true
                 | x :: rest => printable x && all rest
                 end) items); cbn -[ToString]; [done|by intros [= <-]].
Qed.

(** The faults are error objects with a string message. *)
Lemma request_fault_classifiable request e :
  request_fault engine request = Some e → classifiable e = true.
Proof.
  unfold request_fault, TypeError.
  destruct request as [m|v]; [by intros [= <-]|].
  destruct (nullish v); [by intros [= <-]|].
  destruct (negb _); [discriminate|].
  destruct (field v "image"); try (by intros [= <-]);
    by destruct (_ || _); try discriminate; intros [= <-].
Qed.

(** X7. Whether the provider is called depends on the request alone:
    it is called once when the body is not [null], its [image] is a
    non-empty string or an array, and a payload can be built from it
    (the image has a comma, or [mimeType] and the image convert to
    strings), and not at all otherwise. *)
Theorem provider_called_once_or_never (request : NextRequest) (provider : Provider) :
  List.length (POST request provider).2
  = (if reaches_provider request then 1 else 0)%nat.
Proof.
  destruct (try_block_outcomes request provider) as (c & calls & Htry & Hlen & _).
  by rewrite (POST_of_try _ _ _ _ Htry).
Qed.

(** X8. A request that faults before the provider is reached (a body
    that is not JSON, a [null] body, an image that is a number, [true]
    or an object, a [mimeType] or an array image that does not convert
    to a string) is not answered with status 400: it goes through the
    [catch] block like a provider error, is answered with status 401,
    429 or 500 according to the wording of the fault, and the provider
    is not called. *)
Theorem request_faults_are_classified (request : NextRequest) (provider : Provider)
    (e : JsValue) :
  request_fault engine request = Some e →
  POST request provider = (Resolves (classify e), [])
  ∧ status (classify e) ∈ [401; 429; 500].
Proof.
  intros Hfault. split.
  - rewrite (POST_of_try _ _ _ _ (try_block_fault request provider e Hfault)).
    by rewrite (RouteFacts.catch_block_classifies _ _
                  (request_fault_classifiable request e Hfault)).
  - destruct (RouteFacts.classify_status e) as [-> | [-> | ->]]; repeat constructor.
Qed.

(** X9. The handler does not look into what the provider returns: for
    a string image whose payload can be built, any truthy object comes
    back unchanged as [data], with [success: true] and status 200. *)
Theorem returned_object_is_passed_on (fields : gmap string JsValue) (img : string)
    (provider : Provider) (o : JsValue) :
  fields !! "image" = Some (JStr img) → img ≠ EmptyString →
  payload_defined img (field (JObj fields) "mimeType") = true →
  (∀ call, provider call = Returns o) → truthy o = true →
  (POST (BodyJson (JObj fields)) provider).1
  = Resolves (json (object [("success", JBool true); ("data", o)]) 200).
Proof.
  intros Himg Hne Hdef Hret Ho.
  by rewrite (POST_string_image fields img provider Himg Hne Hdef), Hret, Ho.
Qed.

(** X10. An [image] that is an array reaches the provider too, when a
    payload can be built from it: as it is when one of its elements is
    the string [,]; otherwise, when [mimeType] and every element convert
    to strings, joined with commas behind the [data:] prefix.  When one
    of them does not convert, the provider is not called and the fault
    goes through the [catch] block. *)
Theorem array_image_reaches_provider (fields : gmap string JsValue)
    (items : list JsValue) (provider : Provider) :
  fields !! "image" = Some (JArr items) →
  if existsb (is_string ",") items
  then ∃ call, (POST (BodyJson (JObj fields)) provider).2 = [call]
         ∧ image call = JArr items
  else if printable (field (JObj fields) "mimeType") && printable (JArr items)
  then ∃ call, (POST (BodyJson (JObj fields)) provider).2 = [call]
         ∧ image call
           = JStr ("data:" +:+ mime_of (field (JObj fields) "mimeType")
                   +:+ ";base64," +:+ ToString (JArr items))
  else POST (BodyJson (JObj fields)) provider
       = (Resolves (classify (TypeError engine NotPrimitive)), []).
Proof.
  intros Himg.
  assert (Hfield : field (JObj fields) "image" = JArr items)
    by (by cbn [field]; rewrite Himg).
  destruct (existsb (is_string ",") items) eqn:Hcomma;
    [|destruct (printable _ && printable _) eqn:Hprint].
  3: { assert (Hfault : request_fault engine (BodyJson (JObj fields))
                        = Some (TypeError engine NotPrimitive)).
       { unfold request_fault. rewrite Hfield. cbn [nullish truthy negb].
         by rewrite Hcomma, Hprint. }
       rewrite (POST_of_try _ _ _ _
                  (try_block_fault (BodyJson (JObj fields)) provider _ Hfault)).
       by rewrite (RouteFacts.catch_block_classifies _ _
                     (request_fault_classifiable _ _ Hfault)). }
  all: unfold Route.POST, Route.try_block, mbind, eff_bind, lift, request_json,
         destructure, get, call_provider, call_includes, coerce, completion_bind,
         mime_of.
  all: cbn [nullish field] in *; rewrite Himg; cbn -[existsb printable ToString].
  all: rewrite Hcomma; cbn -[printable ToString].
  - destruct (provider _) as [e|o]; cbn; [by eauto|].
    destruct (truthy o); cbn; by eauto.
  - apply andb_true_iff in Hprint as [Hmime Hitems].
    rewrite printable_or_else, Hmime. cbn -[printable ToString].
    rewrite Hitems. cbn -[ToString]. unfold or_else.
    destruct (provider _) as [e|o]; cbn -[ToString];
      [|destruct (truthy o); cbn -[ToString]];
      (eexists; split; [reflexivity|]); cbn -[ToString];
      by destruct (truthy (default JUndefined (fields !! "mimeType"))).
Qed.

Lemma includes_app_r needle a b :
  includes needle b = true → includes needle (a +:+ b) = true.
Proof.
  intros Hb. induction a as [|c a IH]; [done|].
  change (includes needle (String c a +:+ b))
    with (String.prefix needle (String c (a +:+ b)) || includes needle (a +:+ b)).
  by rewrite IH, orb_true_r.
Qed.

Lemma comma_in_synthesized mime img :
  includes "," ("data:" +:+ mime +:+ ";base64," +:+ img) = true.
Proof. do 2 apply includes_app_r. by destruct img. Qed.

(** The payload for a string image contains a comma. *)
Lemma payload_has_comma img mimeType :
  ∃ p, image (Contract.call_for extractedDataSchema systemPrompt userPrompt img mimeType)
       = JStr p
    ∧ includes "," p = true ∧ (img ≠ EmptyString → p ≠ EmptyString).
Proof.
  unfold Contract.call_for. simpl.
  destruct (includes "," img) eqn:Hc; eexists; (split; [reflexivity|]).
  - by split.
  - split; [apply comma_in_synthesized|discriminate].
Qed.

(** X11. Normalization is idempotent: what the handler sends to the
    model for a string image, sent in again as [image], is passed on
    unchanged, whatever [mimeType] comes with it. *)
Theorem normalization_is_idempotent (fields fields' : gmap string JsValue)
    (img : string) (provider provider' : Provider) (call : GenerateObjectCall) :
  fields !! "image" = Some (JStr img) → img ≠ EmptyString →
  (POST (BodyJson (JObj fields)) provider).2 = [call] →
  fields' !! "image" = Some (image call) →
  ∃ call', (POST (BodyJson (JObj fields')) provider').2 = [call']
    ∧ image call' = image call.
Proof.
  intros Himg Hne Hcall Himg'.
  destruct (payload_defined img (field (JObj fields) "mimeType")) eqn:Hdef.
  2: { by rewrite (RouteFacts.POST_string_image_fault engine extractedDataSchema
                     systemPrompt userPrompt fields img provider Himg Hne Hdef)
         in Hcall. }
  rewrite (POST_string_image fields img provider Himg Hne Hdef) in Hcall.
  cbn [snd] in Hcall. injection Hcall as Hcall. subst call.
  destruct (payload_has_comma img (field (JObj fields) "mimeType"))
    as (p & Hp & Hcomma & Hne').
  cbn [field] in Hp. rewrite Hp in Himg' |- *.
  assert (Hdef' : payload_defined p (field (JObj fields') "mimeType") = true)
    by (by unfold payload_defined; rewrite Hcomma).
  rewrite (POST_string_image fields' p provider' Himg' (Hne' Hne) Hdef'). simpl.
  eexists. split; [reflexivity|]. simpl. by rewrite Hcomma.
Qed.

(** The answers the handler can give. *)
Lemma POST_answers request provider r :
  (∀ call e, provider call = Throws e → classifiable e = true) →
  (POST request provider).1 = Resolves r →
  r = no_image ∨ r = no_data ∨ (∃ o, truthy o = true ∧ r = success o)
  ∨ r = invalid_key ∨ (∃ d, r = rate_limited d) ∨ (∃ d, r = provider_failure d).
Proof.
  intros Hprov.
  destruct (try_block_outcomes request provider) as (c & calls & Htry & _ & Hc).
  rewrite (POST_of_try _ _ _ _ Htry). simpl.
  destruct c as [r'|e].
  - intros [= <-]. destruct Hc as [[-> _]|[->|?]]; by eauto.
  - assert (Hcl : classifiable e = true).
    { destruct Hc as [Hf|[_ [call Hcall]]]; [|by eauto].
      by apply (request_fault_classifiable request). }
    rewrite (RouteFacts.catch_block_classifies _ _ Hcl). intros [= <-].
    unfold classify.
    destruct (message_has "API_KEY" _); [by eauto 10|].
    destruct (_ || _); by eauto 10.
Qed.

(** X12. The answers have two shapes.  With status 200 the body has
    [success: true] and a truthy [data] and no [error]; with any other
    status it has a non-empty string [error] and neither [success] nor
    [data]. *)
Theorem response_shape (request : NextRequest) (provider : Provider) :
  (∀ call e, provider call = Throws e → classifiable e = true) →
  ∃ r, (POST request provider).1 = Resolves r
    ∧ ((status r = 200 ∧ field (body r) "success" = JBool true
        ∧ truthy (field (body r) "data") = true
        ∧ field (body r) "error" = JUndefined)
       ∨ (status r ≠ 200
          ∧ (∃ m, field (body r) "error" = JStr m ∧ m ≠ EmptyString)
          ∧ field (body r) "success" = JUndefined
          ∧ field (body r) "data" = JUndefined)).
Proof.
  intros Hprov.
  assert (Hclassify : ∀ e,
    status (classify e) ≠ 200
    ∧ (∃ m, field (body (classify e)) "error" = JStr m ∧ m ≠ EmptyString)
    ∧ field (body (classify e)) "success" = JUndefined
    ∧ field (body (classify e)) "data" = JUndefined).
  { intros e. unfold classify.
    destruct (message_has "API_KEY" _); [|destruct (_ || _)];
      (split; [discriminate|split; [eexists; split; [reflexivity|discriminate]|]]);
      by split. }
  destruct (try_block_outcomes request provider) as (c & calls & Htry & _ & Hc).
  rewrite (POST_of_try _ _ _ _ Htry). simpl.
  destruct c as [r|e].
  - exists r. split; [done|].
    destruct Hc as [[-> _]|[->|(o & Ho & ->)]].
    + right. split; [discriminate|]. split; [|by split].
      eexists. split; [reflexivity|discriminate].
    + right. split; [discriminate|]. split; [|by split].
      eexists. split; [reflexivity|discriminate].
    + left. by repeat split.
  - assert (Hcl : classifiable e = true).
    { destruct Hc as [Hf|[_ [call Hcall]]]; [|by eauto].
      by apply (request_fault_classifiable request). }
    rewrite (RouteFacts.catch_block_classifies _ _ Hcl).
    exists (classify e). split; [done|]. right. apply Hclassify.
Qed.

(** X13. If the provider, reached with the payload for a string image,
    throws something the [catch] block cannot classify ([null],
    [undefined], or a value whose [message] is a number, a boolean or an
    object), the handler answers nothing: its promise is rejected, after
    the one provider call. *)
Theorem unclassifiable_error_rejects (fields : gmap string JsValue) (img : string)
    (provider : Provider) (e : JsValue) :
  fields !! "image" = Some (JStr img) → img ≠ EmptyString →
  payload_defined img (field (JObj fields) "mimeType") = true →
  (∀ call, provider call = Throws e) → classifiable e = false →
  ∃ reason call, POST (BodyJson (JObj fields)) provider = (Rejects reason, [call]).
Proof.
  intros Himg Hne Hdef Hthrows Hcl.
  rewrite (POST_string_image fields img provider Himg Hne Hdef), Hthrows.
  destruct (RouteFacts.catch_block_escapes engine e Hcl) as [reason ->].
  by eauto.
Qed.

(** X14. Of a JSON object body the handler reads [image] and
    [mimeType] and nothing else: two bodies that agree on these two keys
    are answered alike, with the same provider calls. *)
Theorem other_fields_are_ignored (fields fields' : gmap string JsValue)
    (provider : Provider) :
  fields !! "image" = fields' !! "image" →
  fields !! "mimeType" = fields' !! "mimeType" →
  POST (BodyJson (JObj fields)) provider = POST (BodyJson (JObj fields')) provider.
Proof.
  intros Himg Hmime.
  unfold Route.POST, Route.try_block, mbind, eff_bind, lift, request_json,
    destructure, get.
  simpl. by rewrite Himg, Hmime.
Qed.

End Handler.

(** *** The theorems at work on concrete requests *)

Lemma request_faults_are_classified_witness :
  Expense.POST node (BodyJson (object [("image", JNum "42")])) (λ _, Returns JNull)
  = (Resolves (classify (ErrorObject "image.includes is not a function")), [])
  ∧ status (classify (ErrorObject "image.includes is not a function"))
    ∈ [401; 429; 500].
Proof.
  apply (request_faults_are_classified node Expense.extractedDataSchema
           Expense.systemPrompt Expense.userPrompt
           (BodyJson (object [("image", JNum "42")])) (λ _, Returns JNull)).
  vm_compute. reflexivity.
Defined.

Lemma returned_object_is_passed_on_witness :
  (Expense.POST node (BodyJson Samples.taxi_request) (λ _, Returns (JStr "anything"))).1
  = Resolves (json (object [("success", JBool true); ("data", JStr "anything")]) 200).
Proof.
  apply (returned_object_is_passed_on node Expense.extractedDataSchema
           Expense.systemPrompt Expense.userPrompt
           (list_to_map [("image", JStr "data:image/png;base64,AAAA");
                         ("mimeType", JStr "image/png")])
           "data:image/png;base64,AAAA" (λ _, Returns (JStr "anything"))
           (JStr "anything")).
  - vm_compute. reflexivity.
  - discriminate.
  - vm_compute. reflexivity.
  - reflexivity.
  - reflexivity.
Defined.

(** An array image with an element that has a [toString] key of its
    own stops the handler before the provider. *)
Example unprintable_element_faults :
  Expense.POST node
    (BodyJson (object [("image", JArr [object [("toString", JNum "1")]])]))
    (λ _, Returns JNull)
  = (Resolves (json (object
       [("error", JStr "Failed to process image with Gemini API");
        ("details", JStr "Cannot convert object to primitive value");
        ("suggestion", JStr "Please try again or use Basic OCR mode")])
       500), []).
Proof. vm_compute. reflexivity. Qed.

Lemma array_image_reaches_provider_witness :
  ∃ call,
    (Expense.POST node (BodyJson (object [("image", JArr [JStr "a"; JNull; JStr "b"])]))
       (λ _, Returns JNull)).2 = [call]
    ∧ image call = JStr "data:image/jpeg;base64,a,,b".
Proof.
  destruct (array_image_reaches_provider node Expense.extractedDataSchema
              Expense.systemPrompt Expense.userPrompt
              (list_to_map [("image", JArr [JStr "a"; JNull; JStr "b"])])
              [JStr "a"; JNull; JStr "b"] (λ _, Returns JNull))
    as (call & Hcalls & Himage).
  - vm_compute. reflexivity.
  - exists call. split; [exact Hcalls|]. rewrite Himage. vm_compute. reflexivity.
Defined.

Lemma normalization_is_idempotent_witness :
  ∃ call',
    (Expense.POST node
       (BodyJson (object [("image", JStr "data:image/png;base64,aGVsbG8=")]))
       (λ _, Returns JNull)).2 = [call']
    ∧ image call' = JStr "data:image/png;base64,aGVsbG8=".
Proof.
  apply (normalization_is_idempotent node Expense.extractedDataSchema
           Expense.systemPrompt Expense.userPrompt
           (list_to_map [("image", JStr "aGVsbG8="); ("mimeType", JStr "image/png")])
           (list_to_map [("image", JStr "data:image/png;base64,aGVsbG8=")])
           "aGVsbG8=" (λ _, Returns JNull) (λ _, Returns JNull)
           (Contract.call_for Expense.extractedDataSchema Expense.systemPrompt
              Expense.userPrompt "aGVsbG8=" (JStr "image/png"))).
  - vm_compute. reflexivity.
  - discriminate.
  - vm_compute. reflexivity.
  - vm_compute. reflexivity.
Defined.

Lemma response_shape_witness :
  ∃ r, (Expense.POST node (BodyJson Samples.taxi_request)
          (λ _, Throws (ErrorObject "You exceeded your current quota."))).1
       = Resolves r
    ∧ ((status r = 200 ∧ field (body r) "success" = JBool true
        ∧ truthy (field (body r) "data") = true
        ∧ field (body r) "error" = JUndefined)
       ∨ (status r ≠ 200
          ∧ (∃ m, field (body r) "error" = JStr m ∧ m ≠ EmptyString)
          ∧ field (body r) "success" = JUndefined
          ∧ field (body r) "data" = JUndefined)).
Proof.
  apply (response_shape node Expense.extractedDataSchema
           Expense.systemPrompt Expense.userPrompt).
  intros call e [= <-]. vm_compute. reflexivity.
Defined.

Lemma unclassifiable_error_rejects_witness :
  ∃ reason call,
    Expense.POST node (BodyJson Samples.taxi_request)
      (λ _, Throws (object [("message", JNum "503")]))
    = (Rejects reason, [call]).
Proof.
  apply (unclassifiable_error_rejects node Expense.extractedDataSchema
           Expense.systemPrompt Expense.userPrompt
           (list_to_map [("image", JStr "data:image/png;base64,AAAA");
                         ("mimeType", JStr "image/png")])
           "data:image/png;base64,AAAA"
           (λ _, Throws (object [("message", JNum "503")]))
           (object [("message", JNum "503")])).
  - vm_compute. reflexivity.
  - discriminate.
  - vm_compute. reflexivity.
  - reflexivity.
  - vm_compute. reflexivity.
Defined.

Lemma other_fields_are_ignored_witness :
  Expense.POST node
    (BodyJson (object [("image", JStr "aGVsbG8="); ("note", JStr "lunch")]))
    (λ _, Returns JNull)
  = Expense.POST node (BodyJson (object [("image", JStr "aGVsbG8=")]))
      (λ _, Returns JNull).
Proof.
  apply (other_fields_are_ignored node Expense.extractedDataSchema
           Expense.systemPrompt Expense.userPrompt
           (list_to_map [("image", JStr "aGVsbG8="); ("note", JStr "lunch")])
           (list_to_map [("image", JStr "aGVsbG8=")])).
  - vm_compute. reflexivity.
  - vm_compute. reflexivity.
Defined.

End HandlerFacts.

(** ** The schemas of the other revisions, and the validator at large *)

Module SchemaFacts.

Lemma parse_type_keeps t v o : parse_type t v = inl o → o = v.
Proof.
  induction t as [|values| |inner IH|inner IH text]; simpl.
  - destruct v; congruence.
  - destruct v; try congruence. case_bool_decide; congruence.
  - congruence.
  - destruct v; auto. congruence.
  - auto.
Qed.

(** The parsed object is the input restricted to the keys of the shape. *)
Lemma parse_shape_restricts sh fields out :
  parse_shape sh fields = (out, []) →
  ∀ key, out !! key = if bool_decide (key ∈ sh.*1) then fields !! key else None.
Proof.
  revert out. induction sh as [|[k t] rest IH]; intros out; simpl.
  - intros [= <-] key. by rewrite lookup_empty.
  - destruct (parse_shape rest fields) as [out' issues].
    destruct (parse_type t _) as [parsed|c] eqn:Hparse; [|discriminate].
    intros [= <- ->] key. specialize (IH out' eq_refl).
    apply parse_type_keeps in Hparse. subst parsed.
    change (list_fmap (string * ZodType)%type string fst rest) with (rest.*1).
    destruct (decide (key = k)) as [->|Hne].
    + rewrite (bool_decide_eq_true_2 (k ∈ k :: rest.*1)) by left.
      destruct (fields !! k) as [x|] eqn:Hk; simpl.
      * by rewrite lookup_insert_eq.
      * rewrite IH, Hk. by case_bool_decide.
    + assert (Hin : bool_decide (key ∈ k :: rest.*1) = bool_decide (key ∈ rest.*1)).
      { apply bool_decide_ext. rewrite elem_of_cons. tauto. }
      rewrite Hin, <- IH.
      destruct (_ || _); [by rewrite lookup_insert_ne|done].
Qed.

Lemma parse_shape_agree sh fields fields' :
  (∀ key, key ∈ sh.*1 → fields !! key = fields' !! key) →
  parse_shape sh fields = parse_shape sh fields'.
Proof.
  induction sh as [|[k t] rest IH]; intros Hagree; simpl; [done|].
  rewrite IH by (intros key Hkey; apply Hagree; by right).
  by rewrite (Hagree k) by left.
Qed.

(** The fields of an accepted output. *)
Lemma accepted_fields schema candidate data key :
  safeParse schema candidate = ParseSuccess data →
  field data key
  = if bool_decide (key ∈ (shape schema).*1) then field candidate key else JUndefined.
Proof.
  intros Hok.
  destruct (safeParse_success _ _ _ Hok) as (fields & -> & Hclean & ->).
  destruct (parse_shape (shape schema) fields) as [out issues] eqn:Hshape.
  simpl in Hclean. subst issues. simpl.
  rewrite (parse_shape_restricts _ _ _ Hshape). by case_bool_decide.
Qed.

(** X15. With any schema built from the combinators the revisions use,
    the validator changes no value: an accepted output has, under each
    key of the schema, exactly what the candidate has there, and nothing
    under any other key; validated again it is accepted as it is. *)
Theorem accepted_output_is_restriction (schema : ZodObject) (candidate data : JsValue) :
  safeParse schema candidate = ParseSuccess data →
  (∀ key, field data key
          = if bool_decide (key ∈ (shape schema).*1) then field candidate key
            else JUndefined)
  ∧ safeParse schema data = ParseSuccess data.
Proof.
  intros Hok. split; [intros key; by apply accepted_fields|].
  destruct (safeParse_success _ _ _ Hok) as (fields & -> & Hclean & ->).
  destruct (parse_shape (shape schema) fields) as [out issues] eqn:Hshape.
  simpl in Hclean. subst issues. simpl.
  pose proof (parse_shape_restricts _ _ _ Hshape) as Hout.
  unfold safeParse.
  rewrite (parse_shape_agree (shape schema) out fields), Hshape; [done|].
  intros key Hkey. rewrite Hout. by rewrite bool_decide_eq_true_2.
Qed.

Lemma accepted_output_is_restriction_witness :
  (∀ key, field Samples.taxi_data key
          = if bool_decide (key ∈ (shape Expense.extractedDataSchema).*1)
            then field (object [("bill_no", JStr "N/A"); ("amount", JStr "245.00");
                                ("purpose", JStr "Conveyance"); ("raw_text", JStr "UBER");
                                ("tip", JNum "20")]) key
            else JUndefined)
  ∧ safeParse Expense.extractedDataSchema Samples.taxi_data
    = ParseSuccess Samples.taxi_data.
Proof.
  apply (accepted_output_is_restriction Expense.extractedDataSchema
           (object [("bill_no", JStr "N/A"); ("amount", JStr "245.00");
                    ("purpose", JStr "Conveyance"); ("raw_text", JStr "UBER");
                    ("tip", JNum "20")])
           Samples.taxi_data).
  vm_compute. reflexivity.
Defined.

(** X16. The schema of the general document revision accepts a
    candidate exactly when [document_type] and [raw_text] are strings;
    [structured_data] may be anything or missing, and comes out as it
    went in. *)
Theorem document_schema_validation (candidate : JsValue) :
  match safeParse Document.extractedDataSchema candidate with
  | ParseSuccess data =>
      ∃ d r, field candidate "document_type" = JStr d
        ∧ field candidate "raw_text" = JStr r
        ∧ field data "document_type" = JStr d ∧ field data "raw_text" = JStr r
        ∧ field data "structured_data" = field candidate "structured_data"
  | ParseError issues =>
      issues ≠ []
      ∧ ¬ ∃ d r, field candidate "document_type" = JStr d
                 ∧ field candidate "raw_text" = JStr r
  end.
Proof.
  destruct (safeParse Document.extractedDataSchema candidate) as [data|issues] eqn:E.
  - pose proof (λ key, accepted_fields _ _ _ key E) as Hfield.
    destruct (safeParse_success _ _ _ E) as (fields & -> & Hclean & _).
    unfold Document.extractedDataSchema in Hclean. simpl shape in Hclean.
    apply parse_shape_clean in Hclean as [(od & Hd) Hclean].
    apply parse_shape_clean in Hclean as [(or & Hr) _].
    apply parse_string_inv in Hd as (d & Hd & _).
    apply parse_string_inv in Hr as (r & Hr & _).
    exists d, r. rewrite !Hfield. simpl. by rewrite Hd, Hr.
  - split; [by eapply safeParse_error|].
    intros (d & r & Hd & Hr).
    apply field_is_string in Hd as (fields & -> & Hd).
    apply field_is_string in Hr as (? & [= <-] & Hr).
    revert E. unfold safeParse, Document.extractedDataSchema. simpl.
    rewrite Hd, Hr. simpl.
    destruct (fields !! "structured_data") as [[]|]; simpl; discriminate.
Qed.

(** X17. The prompts and the schema agree: each of the seven purposes
    the schema accepts is named in both expense prompts (as a quoted
    literal in the long one), and both prompts ask for the sentinels
    [N/A] and [0] in quotes. *)
Theorem prompts_name_every_purpose :
  Forall (λ p, includes (dq +:+ p +:+ dq) Expense.systemPrompt = true
               ∧ includes p ExpenseCompact.systemPrompt = true)
    Expense.purposes
  ∧ includes (dq +:+ "N/A" +:+ dq) Expense.systemPrompt = true
  ∧ includes (dq +:+ "0" +:+ dq) Expense.systemPrompt = true
  ∧ includes (dq +:+ "N/A" +:+ dq) ExpenseCompact.systemPrompt = true
  ∧ includes (dq +:+ "0" +:+ dq) ExpenseCompact.systemPrompt = true.
Proof.
  split; [|vm_compute; by repeat split].
  unfold Expense.purposes. repeat constructor; vm_compute; reflexivity.
Qed.

End SchemaFacts.

(** ** The component and the handler together *)

Module RoundTrip.
Import Route ImageOCR View Conditions.

Section Pipeline.
Context (engine : Engine).
Context (extractedDataSchema : ZodObject) (systemPrompt userPrompt : string).

Local Abbreviation POST :=
  (Route.POST engine extractedDataSchema systemPrompt userPrompt).
Local Abbreviation after_fetch := (ImageOCR.after_fetch engine).
Local Abbreviation after_read := (ImageOCR.after_read engine).

(** A key of a body, read after the transport. *)
Lemma field_wire fields key :
  field (default JUndefined (wire (JObj fields))) key
  = default JUndefined (fields !! key ≫= wire).
Proof.
  change (default JUndefined (omap wire fields !! key)
          = default JUndefined (fields !! key ≫= wire)).
  by rewrite lookup_omap.
Qed.

(** A failure response leaves result and text as they were. *)
Lemma failure_keeps_result result s :
  structuredData (after_fetch (Responded false result) s) = structuredData s
  ∧ ImageOCR.text (after_fetch (Responded false result) s) = ImageOCR.text s.
Proof.
  unfold ImageOCR.after_fetch.
  destruct (get engine result "error") as [err|e];
    [|by destruct (SessionFacts.catch_cells engine e s) as (_ & _ & ? & ? & _)].
  destruct (opt_includes engine _ err "API key") as [[]|e].
  - destruct (mbind _ _) as [message|e]; [by destruct s|].
    by destruct (SessionFacts.catch_cells engine e (setApiKeyMissing true s))
      as (_ & _ & ? & ? & _).
  - by destruct s.
  - by destruct (SessionFacts.catch_cells engine e s) as (_ & _ & ? & ? & _).
Qed.

(** X18. The image the component reads as a data URL is what the model
    gets: the request the component builds from it makes the handler call
    the provider once, with the data URL unchanged (the [mimeType] sent
    along plays no part). *)
Theorem client_image_reaches_model (a : Attempt) (url : string) (s : State)
    (provider : Provider) :
  is_data_uri url = true →
  ∃ request call,
    after_read a (Loaded (JStr url)) s
    = (setStatus "Analyzing image with AI..." s,
       Some {| file := file a; stage := Fetching request |})
    ∧ (POST (BodyJson request) provider).2 = [call]
    ∧ Route.image call = JStr url.
Proof.
  intros [Hdata Hcomma]%andb_true_iff.
  eexists _, _. split; [reflexivity|].
  assert (Hne : url ≠ EmptyString) by (by intros ->).
  assert (Himg : (list_to_map [("image", JStr url);
                                ("mimeType", JStr (type (file a)))]
                  : gmap string JsValue) !! "image" = Some (JStr url))
    by reflexivity.
  unfold object.
  assert (Hdef : payload_defined url
                   (field (JObj (list_to_map [("image", JStr url);
                                              ("mimeType", JStr (type (file a)))]))
                      "mimeType") = true)
    by (by unfold payload_defined; rewrite Hcomma).
  rewrite (RouteFacts.POST_string_image engine extractedDataSchema systemPrompt
             userPrompt _ url provider Himg Hne Hdef).
  split; [reflexivity|]. simpl. by rewrite Hcomma.
Qed.

(** X19. A failure answer of the handler, received by the component,
    ends up in the error cell: for status 401 the error text followed by
    the instructions, with the setup panel switched on, and for any
    other failure status the [error] text of the body alone.  Result and
    text are left as they were. *)
Theorem failure_round_trip (request : NextRequest) (provider : Provider)
    (r : NextResponse) (s : State) :
  (∀ call e, provider call = Throws e → classifiable e = true) →
  (POST request provider).1 = Resolves r → Route.status r ≠ 200 →
  (if (Route.status r =? 401)%nat
   then ImageOCR.error (after_fetch (respond r) s)
        = JStr ("Invalid API key. Please check your GOOGLE_GEMINI_API_KEY in .env.local"
                +:+ " " +:+ "Get a new API key from https://aistudio.google.com/apikey")
        ∧ apiKeyMissing (after_fetch (respond r) s) = true
   else ImageOCR.error (after_fetch (respond r) s) = field (body r) "error"
        ∧ apiKeyMissing (after_fetch (respond r) s) = apiKeyMissing s)
  ∧ structuredData (after_fetch (respond r) s) = structuredData s
  ∧ ImageOCR.text (after_fetch (respond r) s) = ImageOCR.text s.
Proof.
  intros Hprov Hr Hstatus.
  destruct (HandlerFacts.POST_answers _ _ _ _ _ _ _ Hprov Hr)
    as [->|[->|[(o & _ & ->)|[->|[[d ->]|[d ->]]]]]];
    try done.
  all: unfold respond, no_image, no_data, invalid_key, rate_limited,
         provider_failure, object; cbn [body Route.status].
  all: match goal with
       | |- context [wire (JObj ?m)] =>
           pose proof (field_wire m "error") as He;
           pose proof (field_wire m "instructions") as Hi;
           set (received := default JUndefined (wire (JObj m))) in *
       end.
  all: eassert (He' : field received "error" = JStr _)
         by (rewrite He; reflexivity).
  all: assert (Hp : printable (field received "instructions") = true)
         by (rewrite Hi; reflexivity).
  all: destruct (ImageOCRFacts.after_fetch_failure engine s received _ He' Hp)
         as (Herr & Hkey & _).
  all: destruct (failure_keeps_result received s) as [Hdata Htext].
  all: match goal with
       | |- context [Responded ?b _] =>
           replace b with false by (vm_compute; reflexivity)
       end.
  all: rewrite Herr, Hkey, Hdata, Htext.
  all: by repeat split.
Qed.

(** The [catch] block on a [TypeError] of the engine shows its message. *)
Lemma catch_shows_type_error f s :
  ImageOCR.error (catch engine (TypeError engine f) s)
  = JStr ("Failed to connect to AI service. " +:+ type_error_message engine f)
  ∧ ImageOCR.text (catch engine (TypeError engine f) s) = ImageOCR.text s.
Proof.
  unfold ImageOCR.catch, TypeError, ErrorObject, get.
  change (field (object [("message", JStr (type_error_message engine f))]) "message")
    with (JStr (type_error_message engine f)).
  cbn [nullish object]. unfold coerce, or_else. cbn [truthy].
  destruct (String.eqb_spec (type_error_message engine f) EmptyString) as [->|_];
    by destruct s.
Qed.

(** What the component makes of a success response it has received. *)
Lemma success_received received data s :
  nullish received = false → field received "data" = data →
  structuredData (after_fetch (Responded true received) s) = data
  ∧ if nullish data
    then ImageOCR.error (after_fetch (Responded true received) s)
         = JStr ("Failed to connect to AI service. "
                 +:+ type_error_message engine (ReadOfNullish data "raw_text"))
         ∧ ImageOCR.text (after_fetch (Responded true received) s) = ImageOCR.text s
    else ImageOCR.text (after_fetch (Responded true received) s)
         = or_else (field data "raw_text") (JStr EmptyString)
         ∧ ImageOCR.error (after_fetch (Responded true received) s) = ImageOCR.error s.
Proof.
  intros Hr <-. unfold ImageOCR.after_fetch, get.
  replace (match received with
           | JUndefined | JNull => _
           | _ => Normal (field received "data")
           end)
    with (Normal (A:=JsValue) (field received "data")) by (by destruct received).
  destruct (field received "data") eqn:Hd; cbn [nullish].
  1-2: destruct (catch_shows_type_error (ReadOfNullish (field received "data") "raw_text")
                  (setStructuredData (field received "data") s)) as [He Ht];
       rewrite Hd in He, Ht; rewrite He, Ht;
       destruct (SessionFacts.catch_cells engine
                   (TypeError engine (ReadOfNullish (field received "data") "raw_text"))
                   (setStructuredData (field received "data") s))
         as (_ & _ & _ & Hs & _);
       rewrite Hd in Hs; rewrite Hs; by destruct s.
  all: by destruct s.
Qed.

(** X20. A success answer of the handler, received by the component
    through its JSON text, becomes the displayed result:
    [structuredData] is the [data] of the body as the transport delivers
    it.  Unless that is [null] (the provider returned a number that is
    not finite), it is truthy, [text] is its [raw_text] (or empty) and
    the error cell is left as it was; when it is [null], reading its
    [raw_text] faults, the fault is shown in the error cell and [text]
    is left as it was. *)
Theorem success_round_trip (request : NextRequest) (provider : Provider)
    (r : NextResponse) (s : State) :
  (∀ call e, provider call = Throws e → classifiable e = true) →
  (POST request provider).1 = Resolves r → Route.status r = 200 →
  ∃ data, wire (field (body r) "data") = Some data
    ∧ structuredData (after_fetch (respond r) s) = data
    ∧ if nullish data
      then ImageOCR.error (after_fetch (respond r) s)
           = JStr ("Failed to connect to AI service. "
                   +:+ type_error_message engine (ReadOfNullish data "raw_text"))
           ∧ ImageOCR.text (after_fetch (respond r) s) = ImageOCR.text s
      else truthy data = true
           ∧ ImageOCR.text (after_fetch (respond r) s)
             = or_else (field data "raw_text") (JStr EmptyString)
           ∧ ImageOCR.error (after_fetch (respond r) s) = ImageOCR.error s.
Proof.
  intros Hprov Hr Hstatus.
  destruct (HandlerFacts.POST_answers _ _ _ _ _ _ _ Hprov Hr)
    as [->|[->|[(o & Ho & ->)|[->|[[d ->]|[d ->]]]]]];
    try discriminate.
  change (field (body (success o)) "data") with o.
  assert (Hwire : ∃ data, wire o = Some data ∧ (nullish data = false → truthy data = true)).
  { destruct o as [| |[]|n| | |]; try discriminate; try (by eexists).
    cbn [wire]. destruct (bool_decide _); [by eexists|].
    eexists. split; [reflexivity|]. by intros _. }
  destruct Hwire as (data & Hwire & Htruthy). exists data. split; [done|].
  unfold respond, success, object; cbn [body Route.status].
  match goal with
  | |- context [wire (JObj ?m)] =>
      pose proof (field_wire m "data") as Hd;
      set (received := default JUndefined (wire (JObj m))) in *
  end.
  assert (Hd' : field received "data" = data).
  { rewrite Hd. transitivity (default JUndefined (wire o)); [reflexivity|].
    by rewrite Hwire. }
  destruct (success_received received data s eq_refl Hd') as [Hs Hrest].
  match goal with
  | |- context [Responded ?b _] => replace b with true by (vm_compute; reflexivity)
  end.
  split; [done|].
  destruct (nullish data); [done|].
  destruct Hrest. by split; [apply Htruthy|].
Qed.

End Pipeline.

Lemma client_image_reaches_model_witness :
  ∃ request call,
    ImageOCR.after_read node {| file := Samples.taxi; stage := Reading |}
      (Loaded (JStr "data:image/png;base64,AAAA")) initial
    = (setStatus "Analyzing image with AI..." initial,
       Some {| file := Samples.taxi; stage := Fetching request |})
    ∧ (Expense.POST node (BodyJson request) (λ _, Returns JNull)).2 = [call]
    ∧ Route.image call = JStr "data:image/png;base64,AAAA".
Proof.
  apply (client_image_reaches_model node Expense.extractedDataSchema
           Expense.systemPrompt Expense.userPrompt
           {| file := Samples.taxi; stage := Reading |}
           "data:image/png;base64,AAAA" initial (λ _, Returns JNull)).
  vm_compute. reflexivity.
Defined.

Lemma failure_round_trip_witness :
  ImageOCR.error (ImageOCR.after_fetch node (respond no_image) initial)
  = JStr "No image provided"
  ∧ apiKeyMissing (ImageOCR.after_fetch node (respond no_image) initial) = false.
Proof.
  destruct (failure_round_trip node Expense.extractedDataSchema
              Expense.systemPrompt Expense.userPrompt
              (BodyJson (object [("mimeType", JStr "image/png")]))
              (λ _, Returns JNull) no_image initial) as [Herror _].
  - intros call e [=].
  - vm_compute. reflexivity.
  - discriminate.
  - exact Herror.
Defined.

Lemma success_round_trip_witness :
  structuredData (ImageOCR.after_fetch node
                    (respond (json Samples.taxi_response 200)) initial)
  = Samples.taxi_data.
Proof.
  destruct (success_round_trip node Expense.extractedDataSchema
              Expense.systemPrompt Expense.userPrompt
              (BodyJson Samples.taxi_request) (λ _, Returns Samples.taxi_data)
              (json Samples.taxi_response 200) initial)
    as (data & Hwire & Hdata & _).
  - intros call e [=].
  - vm_compute. reflexivity.
  - reflexivity.
  - rewrite Hdata. vm_compute in Hwire. by injection Hwire.
Defined.

End RoundTrip.

(** ** The expense cards *)

Module ViewFacts.
Import ImageOCR View.

(** The badges, by the value of [purpose]. *)
Lemma badge_cases structuredData :
  (∃ p label, field structuredData "purpose" = JStr p ∧ is_purpose_literal p
     ∧ badges structuredData = [label] ∧ includes p label = true)
  ∨ (badges structuredData = []
     ∧ ¬ ∃ p, field structuredData "purpose" = JStr p ∧ is_purpose_literal p).
Proof.
  unfold badges, purpose_badges, is_purpose_literal.
  destruct (field structuredData "purpose") as [| |b|n|p|items|fs];
    try (right; split; [reflexivity|by intros (p & [=] & _)]).
  simpl.
  destruct (String.eqb_spec p "Conveyance") as [->|H1];
    [left; eexists _, _; repeat split; try reflexivity; tauto|].
  destruct (String.eqb_spec p "Train") as [->|H2];
    [left; eexists _, _; repeat split; try reflexivity; tauto|].
  destruct (String.eqb_spec p "Bus") as [->|H3];
    [left; eexists _, _; repeat split; try reflexivity; tauto|].
  destruct (String.eqb_spec p "Food") as [->|H4];
    [left; eexists _, _; repeat split; try reflexivity; tauto|].
  destruct (String.eqb_spec p "Hotel") as [->|H5];
    [left; eexists _, _; repeat split; try reflexivity; tauto|].
  destruct (String.eqb_spec p "Project Expense") as [->|H6];
    [left; eexists _, _; repeat split; try reflexivity; tauto|].
  destruct (String.eqb_spec p "Other") as [->|H7];
    [left; eexists _, _; repeat split; try reflexivity; tauto|].
  right. split; [reflexivity|].
  intros (p' & [= <-] & Hlit). tauto.
Qed.

(** X21. The purpose card shows a badge exactly when [purpose] is one
    of the seven literals of the schema, and never more than one; the
    badge names the purpose. *)
Theorem purpose_badge (structuredData : JsValue) :
  (List.length (badges structuredData) ≤ 1)%nat
  ∧ (badges structuredData ≠ []
     ↔ ∃ p, field structuredData "purpose" = JStr p ∧ is_purpose_literal p)
  ∧ ∀ p label, field structuredData "purpose" = JStr p →
               label ∈ badges structuredData → includes p label = true.
Proof.
  destruct (badge_cases structuredData)
    as [(p & label & Hp & Hlit & -> & Hin)|[-> Hnone]].
  - split; [simpl; lia|]. split.
    + split; [by eauto|discriminate].
    + intros p' label' Hp' ->%list_elem_of_singleton. congruence.
  - split; [simpl; lia|]. split.
    + split; [done|]. intros Hsome. by destruct Hnone.
    + intros p label _ Hin. by apply elem_of_nil in Hin.
Qed.

(** X22. An output the expense validator accepts is displayed as the
    cards, with the candidate's bill number, amount and raw text and
    exactly one purpose badge, which names its purpose. *)
Theorem accepted_result_is_displayed (candidate data : JsValue) (s : State) :
  safeParse Expense.extractedDataSchema candidate = ParseSuccess data →
  structuredData s = data →
  ∃ b a p r label,
    has_fields candidate b a p r
    ∧ results s = Cards (JStr b) (JStr a) [label] (JStr r)
    ∧ includes p label = true.
Proof.
  intros Hok Hs.
  apply expense_accepted_inv in Hok as (b & a & p & r & Hf & Hlit & ->).
  destruct (badge_cases (object [("bill_no", JStr b); ("amount", JStr a);
                                 ("purpose", JStr p); ("raw_text", JStr r)]))
    as [(p' & label & Hp & _ & Hbadges & Hin)|[_ Hnone]].
  - injection Hp as <-. exists b, a, p, r, label.
    split; [done|]. split; [|done].
    unfold results. rewrite Hs, Hbadges. reflexivity.
  - destruct Hnone. by exists p.
Qed.

Lemma accepted_result_is_displayed_witness :
  ∃ b a p r label,
    has_fields Samples.taxi_data b a p r
    ∧ results (setStructuredData Samples.taxi_data initial)
      = Cards (JStr b) (JStr a) [label] (JStr r)
    ∧ includes p label = true.
Proof.
  apply (accepted_result_is_displayed Samples.taxi_data Samples.taxi_data
           (setStructuredData Samples.taxi_data initial)).
  - vm_compute. reflexivity.
  - reflexivity.
Defined.

End ViewFacts.
